(** * OpenFermion-Cirq: the double-excitation gate and the Trotter-step template

    A shallow embedding of
      - [openfermioncirq/gates/four_qubit_gates.py]   (class [DoubleExcitationGate])
      - [openfermioncirq/trotter/trotter_step_algorithm.py] (class [TrotterStepAlgorithm])
    followed by the properties the specification states about them.

    Conventions of the embedding.
      - Python numbers are modelled by the real number they denote: a float
        argument [x] is [x : R], [numpy.pi] is [PI], arithmetic is exact, and
        an [int] converts to the float of the same value whatever its size.
      - A raised exception is a value of [result]: [Raise (ValueError msg)].
      - A generator is the list of what it yields together with how it ends:
        [Ok tt] when it returns, [Raise e] when a statement raises.
      - numpy arrays with entries 0, 1 and +-0.5 are lists of lists over [Q].
      - Unitaries are functions from two basis indices to complex amplitudes;
        a complex number is a pair of reals. *)

From Stdlib Require Import String DecimalString DecimalPos DecimalZ List ZArith QArith Qreals Reals Lra Lia Bool Arith Ring.
Import ListNotations.

Close Scope R_scope.
Close Scope Q_scope.
Close Scope Z_scope.

(* ================================================================= *)
(** * Part I. Definitions *)
(* ================================================================= *)

(** ** Python values and exceptions *)

Inductive exception : Type :=
| ValueError (msg : string)
| TypeError (msg : string).

Inductive result (A : Type) : Type :=
| Ok (a : A)
| Raise (e : exception).
Arguments Ok {A} a.
Arguments Raise {A} e.

Definition bind {A B : Type} (m : result A) (k : A -> result B) : result B :=
  match m with
  | Ok a => k a
  | Raise e => Raise e
  end.

Notation "x <- m ;; k" := (bind m (fun x => k))
  (at level 61, m at next level, right associativity).

Definition is_not_None {A : Type} (o : option A) : bool :=
  match o with
  | Some _ => true
  | None => false
  end.

(** [len([1 for e in args if e is not None])], the arguments being given by
    their "is not None" tests. *)
Definition count_not_None (tests : list bool) : nat :=
  length (filter (fun b => b) tests).

(** An exponent: [Union[cirq.Symbol, float]].  A Python [int], which a
    caller may pass where a float is expected, is kept apart from a [float];
    the host turns it into a float when it stores it. *)
Inductive Exponent : Type :=
| PyInt (z : Z)
| PyFloat (x : R)
| Symbol (name : string).

(** Unary minus, [-e]: a number is negated; [cirq.Symbol] defines no
    arithmetic, so negating one raises TypeError. *)
Definition py_neg (e : Exponent) : result Exponent :=
  match e with
  | PyInt z => Ok (PyInt (- z)%Z)
  | PyFloat x => Ok (PyFloat (- x)%R)
  | Symbol _ => Raise (TypeError "bad operand type for unary -: 'Symbol'")
  end.

(** The number an exponent denotes; [None] for a symbolic one. *)
Definition num_value (e : Exponent) : option R :=
  match e with
  | PyInt z => Some (IZR z)
  | PyFloat x => Some x
  | Symbol _ => None
  end.

(** The real value of an exponent once every symbol is resolved by [rho]. *)
Definition exp_value (rho : string -> R) (e : Exponent) : R :=
  match e with
  | PyInt z => IZR z
  | PyFloat x => x
  | Symbol n => rho n
  end.

(** [e == 1]: numbers compare by value; a symbol equals no number. *)
Definition py_eq_one (e : Exponent) : bool :=
  match e with
  | PyInt z => Z.eqb z 1
  | PyFloat x => if Req_dec_T x 1 then true else false
  | Symbol _ => false
  end.

(** [repr(e)].  The decimal form of an [int] is computed; the printing of a
    float and of a symbol belongs to the host and is a parameter. *)
Definition py_repr (float_repr : R -> string) (symbol_repr : Exponent -> string)
    (e : Exponent) : string :=
  match e with
  | PyInt z => NilZero.string_of_int (Z.to_int z)
  | PyFloat x => float_repr x
  | Symbol _ => symbol_repr e
  end.

(** Python's [repr] of a float whose value is an integer below 10^16 in size:
    the decimal form of the integer followed by ".0" (so 0.0 prints "0.0");
    the repr of every other float is left to [other]. *)
Definition python_float_repr (other : R -> string) (x : R) : string :=
  if Req_dec_T x (IZR (Int_part x))
  then if (Z.abs (Int_part x) <? 10 ^ 16)%Z
       then (NilZero.string_of_int (Z.to_int (Int_part x)) ++ ".0")%string
       else other x
  else other x.

(** ** Canonical exponents of the host's eigen-gates

    [x % p] on floats, for a positive [p]: the remainder in [0, p). *)
Definition float_mod (x p : R) : R := (x - p * IZR (Int_part (x / p)))%R.

(** The representative of [x] modulo [period] in (-period/2, period/2]. *)
Definition canonicalize (period x : R) : R :=
  let m := float_mod x period in
  if Rlt_dec (period / 2) m then (m - period)%R else m.

(** Modelled from the spec: [cirq.EigenGate.__init__] is host code.  Given
    the period its subclass reports ("consumers may reduce theta modulo 2 for
    canonicalization"), it stores a number as the float that represents it
    modulo the period in (-period/2, period/2], and a symbol as it is. *)
Definition canonicalize_exponent (period : option Z) (e : Exponent) : Exponent :=
  match period with
  | None => e
  | Some p =>
    match num_value e with
    | Some v => PyFloat (canonicalize (IZR p) v)
    | None => e
    end
  end.

(** [type(e).__name__]. *)
Definition type_name (e : Exponent) : string :=
  match e with
  | PyInt _ => "int"
  | PyFloat _ => "float"
  | Symbol _ => "Symbol"
  end.

(** [a * b] on exponents: the product of two ints is an int, any other
    product of two numbers is a float; [cirq.Symbol] defines no arithmetic,
    so a product with a symbol raises TypeError. *)
Definition exponent_mul (a b : Exponent) : result Exponent :=
  match a, b with
  | PyInt x, PyInt y => Ok (PyInt (x * y)%Z)
  | _, _ =>
    match num_value a, num_value b with
    | Some x, Some y => Ok (PyFloat (x * y)%R)
    | _, _ =>
      Raise (TypeError ("unsupported operand type(s) for *: '"
                        ++ type_name a ++ "' and '" ++ type_name b ++ "'"))
    end
  end.

(** Modelled from the spec: [cirq.value.chosen_angle_to_half_turns] is
    host-library code; it "consistently converts whichever single unit was
    given, or returns the default of 1 if none given". *)
Definition chosen_angle_to_half_turns
    (half_turns : option Exponent) (rads degs : option R) : result Exponent :=
  if (1 <? count_not_None
             [is_not_None half_turns; is_not_None rads; is_not_None degs])%nat
  then Raise (ValueError
         "Redundant angle specification. Use ONE of half_turns, rads, or degs.")
  else match rads with
       | Some r => Ok (PyFloat (r / PI)%R)
       | None =>
         match degs with
         | Some d => Ok (PyFloat (d / 180)%R)
         | None =>
           match half_turns with
           | Some h => Ok h
           | None => Ok (PyFloat 1%R)
           end
         end
       end.

(** ** Operations and operation trees of the host toolkit *)

(** The primitive operations the decomposition emits, over any qubit type:
    a controlled-NOT [cirq.CNOT(c, t)], and the one-qubit eigen-gates X and Z
    with the exponent they store, on a qubit. *)
Inductive operation (Q : Type) : Type :=
| CNOT (control target : Q)
| XPow (q : Q) (e : Exponent)
| ZPow (q : Q) (e : Exponent).
Arguments CNOT {Q} control target.
Arguments XPow {Q} q e.
Arguments ZPow {Q} q e.

(** [cirq.X(q)]: the X gate is the eigen-gate with exponent 1.0. *)
Definition X {Q : Type} (q : Q) : operation Q := XPow q (PyFloat 1%R).

(** Modelled from the spec: [cirq.X(q) ** e] and [cirq.Z(q) ** e] are host
    code.  The power of an eigen-gate with exponent 1.0 has the exponent
    [1.0 * e], stored canonically modulo the period 2 of X and of Z. *)
Definition X_pow {Q : Type} (q : Q) (e : Exponent) : result (operation Q) :=
  e' <- exponent_mul (PyFloat 1%R) e ;;
  Ok (XPow q (canonicalize_exponent (Some 2%Z) e')).

Definition Z_pow {Q : Type} (q : Q) (e : Exponent) : result (operation Q) :=
  e' <- exponent_mul (PyFloat 1%R) e ;;
  Ok (ZPow q (canonicalize_exponent (Some 2%Z) e')).

(** [cirq.OP_TREE]: an operation, or an iterable of operation trees. *)
#[warnings="-register-all"]
Inductive OP_TREE (Q : Type) : Type :=
| Op (o : operation Q)
| Ops (l : list (OP_TREE Q)).
Arguments Op {Q} o.
Arguments Ops {Q} l.

(** [cirq.flatten_op_tree]: the operations of a tree, left to right. *)
Fixpoint flatten_op_tree {Q : Type} (t : OP_TREE Q) : list (operation Q) :=
  match t with
  | Op o => [o]
  | Ops l => flat_map flatten_op_tree l
  end.

(** A list of operations, as the operation tree Python builds from it. *)
Definition op_list {Q : Type} (l : list (operation Q)) : OP_TREE Q :=
  Ops (map Op l).

(** Renaming the qubits of an operation. *)
Definition relabel {Q Q' : Type} (f : Q -> Q') (o : operation Q) : operation Q' :=
  match o with
  | CNOT c t => CNOT (f c) (f t)
  | XPow q e => XPow (f q) e
  | ZPow q e => ZPow (f q) e
  end.

(** ** Generators

    What a generator has yielded, and how it ended. *)
Definition gen (Q A : Type) : Type := (list (OP_TREE Q) * result A)%type.

Definition gen_bind {Q A B : Type} (m : gen Q A) (k : A -> gen Q B) : gen Q B :=
  match m with
  | (out, Ok a) => let (out', r) := k a in (out ++ out', r)
  | (out, Raise e) => (out, Raise e)
  end.

(** [yield t]. *)
Definition yield {Q : Type} (t : OP_TREE Q) : gen Q unit := ([t], Ok tt).

(** An expression that yields nothing and may raise. *)
Definition eval {Q A : Type} (r : result A) : gen Q A := ([], r).

Notation "x <~ m ;; k" := (gen_bind m (fun x => k))
  (at level 61, m at next level, right associativity).
Notation "m ;;; k" := (gen_bind m (fun _ => k))
  (at level 61, right associativity).

(** ** numpy arrays over the rationals *)

Definition matrix : Type := list (list Q).

(** [numpy.zeros((n, m))]. *)
Definition zeros (n m : nat) : matrix := repeat (repeat 0%Q m) n.

(** [l[k] = v]; the source only assigns inside the bounds (numpy raises
    IndexError outside them, which never happens here), outside them the
    list is returned as it is. *)
Fixpoint set_nth {A : Type} (l : list A) (k : nat) (v : A) : list A :=
  match l, k with
  | [], _ => []
  | _ :: t, O => v :: t
  | x :: t, S k' => x :: set_nth t k' v
  end.

(** [M[i, j]]. *)
Definition mget (M : matrix) (i j : nat) : Q := nth j (nth i M []) 0%Q.

(** [M[i, j] = v]. *)
Definition mset (M : matrix) (i j : nat) (v : Q) : matrix :=
  set_nth M i (set_nth (nth i M []) j v).

(** [numpy.diag(d)]: the square matrix with [d] on its diagonal. *)
Definition diag (d : list Q) : matrix :=
  map (fun k => set_nth (repeat 0%Q (length d)) k (nth k d 0%Q))
      (seq 0 (length d)).

Definition matrix_of_fun (n m : nat) (f : nat -> nat -> Q) : matrix :=
  map (fun i => map (fun j => f i j) (seq 0 m)) (seq 0 n).

Definition identity (n : nat) : matrix :=
  matrix_of_fun n n (fun i j => if Nat.eqb i j then 1%Q else 0%Q).

Definition transpose (n m : nat) (M : matrix) : matrix :=
  matrix_of_fun m n (fun i j => mget M j i).

Definition madd (n m : nat) (A B : matrix) : matrix :=
  matrix_of_fun n m (fun i j => (mget A i j + mget B i j)%Q).

(** The matrix product of an [n x k] and a [k x m] matrix. *)
Definition mmul (n k m : nat) (A B : matrix) : matrix :=
  matrix_of_fun n m (fun i j =>
    fold_right (fun l acc => (mget A i l * mget B l j + acc)%Q) 0%Q (seq 0 k)).

Definition trace (n : nat) (M : matrix) : Q :=
  fold_right (fun l acc => (mget M l l + acc)%Q) 0%Q (seq 0 n).

(** Entrywise equality of two matrices of the same shape. *)
Definition mat_eq (A B : matrix) : Prop := Forall2 (Forall2 Qeq) A B.

Fixpoint row_eqb (r s : list Q) : bool :=
  match r, s with
  | [], [] => true
  | x :: r', y :: s' => Qeq_bool x y && row_eqb r' s'
  | _, _ => false
  end.

Fixpoint mat_eqb (A B : matrix) : bool :=
  match A, B with
  | [], [] => true
  | r :: A', s :: B' => row_eqb r s && mat_eqb A' B'
  | _, _ => false
  end.

(** ** The gate: [class DoubleExcitationGate] *)

Module TextDiagramInfoArgs.
Record t : Type := { use_unicode_characters : bool }.
End TextDiagramInfoArgs.

Module TextDiagramInfo.
Record t : Type := { wire_symbols : list string; exponent : Exponent }.
End TextDiagramInfo.

Module DoubleExcitationGate.

(** The state [cirq.EigenGate.__init__(exponent=...)] stores. *)
Record t : Type := { _exponent : Exponent }.

Definition _canonical_exponent_period (self : t) : option Z := Some 2%Z.

(** [super().__init__(exponent=exponent)]: the host asks the object it
    initializes for its period and stores the exponent canonically. *)
Definition EigenGate__init__ (exponent : Exponent) : t :=
  let self := {| _exponent := exponent |} in
  {| _exponent :=
       canonicalize_exponent (_canonical_exponent_period self) exponent |}.

Definition __init__
    (half_turns : option Exponent) (rads degs duration : option R) : result t :=
  if (1 <? count_not_None
             [is_not_None half_turns; is_not_None rads;
              is_not_None degs; is_not_None duration])%nat
  then Raise (ValueError
    "Redundant exponent specification. Use ONE of half_turns, rads, degs, or duration.")
  else
    exponent <- match duration with
                | Some d => Ok (PyFloat (2 * d / PI)%R)
                | None => chosen_angle_to_half_turns half_turns rads degs
                end ;;
    Ok (EigenGate__init__ exponent).

Definition half_turns (self : t) : Exponent := _exponent self.

Definition minus_one_component : matrix :=
  let m := zeros 16 16 in
  let m := mset (mset m 3 3 (1 # 2)) 12 12 (1 # 2) in
  mset (mset m 3 12 (- 1 # 2)) 12 3 (- 1 # 2).

Definition plus_one_component : matrix :=
  let m := zeros 16 16 in
  let m := mset (mset m 3 3 (1 # 2)) 12 12 (1 # 2) in
  mset (mset m 3 12 (1 # 2)) 12 3 (1 # 2).

Definition _eigen_components (self : t) : list (Z * matrix) :=
  [ (0%Z, diag [1; 1; 1; 0; 1; 1; 1; 1; 1; 1; 1; 1; 0; 1; 1; 1]%Q);
    ((-1)%Z, minus_one_component);
    (1%Z, plus_one_component) ].

Definition _with_exponent (self : t) (exponent : Exponent) : result t :=
  __init__ (Some exponent) None None None.

(** The generator [default_decompose].  Unpacking [p, q, r, s = qubits]
    raises ValueError unless there are exactly four qubits; the three blocks
    are built before anything is yielded; [-self.half_turns] is evaluated
    after the first three operations were yielded. *)
Definition default_decompose {Q : Type} (self : t) (qubits : list Q)
    : gen Q unit :=
  match qubits with
  | [p; q; r; s] =>
    rq_phase_block <~
      eval (z <- Z_pow q (PyFloat 0.125%R) ;;
            z' <- Z_pow q (PyFloat (- 0.125)%R) ;;
            Ok (op_list [z;
                         CNOT r q;
                         z'])) ;;
    let srq_parity_transform :=
      op_list [CNOT s r;
               CNOT r q;
               CNOT s r] in
    let phase_parity_block :=
      Ops [Ops [rq_phase_block;
                srq_parity_transform;
                rq_phase_block]] in
    yield (Op (CNOT r s)) ;;;
    yield (Op (CNOT q p)) ;;;
    yield (Op (CNOT q r)) ;;;
    x <~ eval (e <- py_neg (half_turns self) ;; X_pow q e) ;;
    yield (Op x) ;;;
    yield phase_parity_block ;;;

    yield (Op (CNOT p q)) ;;;
    yield (Op (X q)) ;;;
    yield phase_parity_block ;;;
    x' <~ eval (X_pow q (half_turns self)) ;;
    yield (Op x') ;;;
    yield phase_parity_block ;;;
    yield (Op (CNOT p q)) ;;;
    yield (Op (X q)) ;;;

    yield phase_parity_block ;;;
    yield (Op (CNOT q p)) ;;;
    yield (Op (CNOT q r)) ;;;
    yield (Op (CNOT r s))
  | _ =>
    eval (Raise (ValueError
      (if (length qubits <? 4)%nat
       then ("not enough values to unpack (expected 4, got "
             ++ NilZero.string_of_uint (Nat.to_uint (length qubits)) ++ ")")%string
       else "too many values to unpack (expected 4)"%string)))
  end.

Definition text_diagram_info (self : t) (args : TextDiagramInfoArgs.t)
    : TextDiagramInfo.t :=
  let wire_symbols :=
    if TextDiagramInfoArgs.use_unicode_characters args
    then ["⇅"; "⇅"; "⇵"; "⇵"]%string
    else ["/\ \/"; "/\ \/"; "\/ /\"; "\/ /\"]%string in
  {| TextDiagramInfo.wire_symbols := wire_symbols;
     TextDiagramInfo.exponent := half_turns self |}.

Definition __repr__ (float_repr : R -> string) (symbol_repr : Exponent -> string)
    (self : t) : string :=
  if py_eq_one (half_turns self)
  then "DoubleExcitation"%string
  else ("DoubleExcitation**" ++ py_repr float_repr symbol_repr (half_turns self))%string.

End DoubleExcitationGate.

(** [DoubleExcitation = DoubleExcitationGate()], evaluated when the module is
    imported. *)
Definition DoubleExcitation : result DoubleExcitationGate.t :=
  DoubleExcitationGate.__init__ None None None None.

(** The operations a gate's decomposition emits on [qubits], flattened:
    all of them when the generator returns, those it yielded before the
    exception when it raises. *)
Definition decomposed_operations {Q : Type}
    (gate : DoubleExcitationGate.t) (qubits : list Q) : list (operation Q) :=
  flat_map flatten_op_tree
           (fst (DoubleExcitationGate.default_decompose gate qubits)).

(** ** A store of gate objects

    Python gates are objects; [_with_exponent] allocates a new one.  A store
    is the list of the objects allocated so far, a reference is an index. *)

Definition store : Type := list DoubleExcitationGate.t.

Definition allocate (g : DoubleExcitationGate.t) (h : store) : nat * store :=
  (length h, h ++ [g]).

(** [self._with_exponent(exponent)] on the store: the object [self] refers to
    is read, the new gate is allocated. *)
Definition with_exponent_in_store (self : nat) (exponent : Exponent) (h : store)
    : option (result (nat * store)) :=
  match nth_error h self with
  | None => None
  | Some g =>
    Some (g' <- DoubleExcitationGate._with_exponent g exponent ;;
          Ok (allocate g' h))
  end.

(** ** The Trotter-step template: [class TrotterStepAlgorithm] *)

Module TrotterStepAlgorithm.
Section Protocol.

(** [cirq.QubitId] and [openfermion.DiagonalCoulombHamiltonian]. *)
Variables QubitId Hamiltonian : Type.

(** The methods of an algorithm, as a subclass provides them. *)
Record t : Type := {
  controlled : bool;
  prepare : list QubitId -> Hamiltonian -> option QubitId -> OP_TREE QubitId;
  trotter_step :
    list QubitId -> Hamiltonian -> R -> option QubitId -> OP_TREE QubitId;
  step_qubit_permutation :
    list QubitId -> option QubitId -> list QubitId * option QubitId;
  finish :
    list QubitId -> Hamiltonian -> Z -> option QubitId -> bool
    -> OP_TREE QubitId
}.

(** The class attribute [controlled = False]. *)
Definition base_controlled : bool := false.

(** [def prepare(self, qubits, hamiltonian, control_qubit=None): return ()]. *)
Definition base_prepare (qubits : list QubitId) (hamiltonian : Hamiltonian)
    (control_qubit : option QubitId) : OP_TREE QubitId :=
  Ops [].

(** [return qubits, control_qubit]. *)
Definition base_step_qubit_permutation (qubits : list QubitId)
    (control_qubit : option QubitId) : list QubitId * option QubitId :=
  (qubits, control_qubit).

(** [def finish(...): return ()]. *)
Definition base_finish (qubits : list QubitId) (hamiltonian : Hamiltonian)
    (n_steps : Z) (control_qubit : option QubitId) (omit_final_swaps : bool)
    : OP_TREE QubitId :=
  Ops [].

(** A subclass that implements the abstract method [trotter_step] and
    overrides nothing else. *)
Definition subclass
    (trotter_step :
       list QubitId -> Hamiltonian -> R -> option QubitId -> OP_TREE QubitId)
    : t :=
  {| controlled := base_controlled;
     prepare := base_prepare;
     trotter_step := trotter_step;
     step_qubit_permutation := base_step_qubit_permutation;
     finish := base_finish |}.

(** Modelled from the spec: the driver is external; between two steps it
    replaces its qubit sequence and control qubit by what
    [step_qubit_permutation] returns.  The labeling after [n] steps. *)
Fixpoint labeling_after (alg : t) (n : nat)
    (qubits : list QubitId) (control_qubit : option QubitId)
    : list QubitId * option QubitId :=
  match n with
  | O => (qubits, control_qubit)
  | S n' =>
    let '(qubits', control_qubit') :=
      step_qubit_permutation alg qubits control_qubit in
    labeling_after alg n' qubits' control_qubit'
  end.

End Protocol.
End TrotterStepAlgorithm.

(** ** Complex amplitudes *)

Definition C : Type := (R * R)%type.

Definition C0 : C := (0, 0)%R.
Definition C1 : C := (1, 0)%R.
Definition Chalf : C := (1 / 2, 0)%R.
Definition Cadd (a b : C) : C := (fst a + fst b, snd a + snd b)%R.
Definition Copp (a : C) : C := (- fst a, - snd a)%R.
Definition Csub (a b : C) : C := (fst a - fst b, snd a - snd b)%R.
Definition Cmul (a b : C) : C :=
  (fst a * fst b - snd a * snd b, fst a * snd b + snd a * fst b)%R.


(** [exp(i x)]. *)
Definition cis (x : R) : C := (cos x, sin x).

Definition Q2C (q : Q) : C := (Q2R q, 0%R).

(** ** The unitary of a sequence of operations

    The four qubits a gate acts on are wires 0 to 3; wire 0 is the most
    significant bit of a basis index, as in the host toolkit (so index 3 is
    |0011> and index 12 is |1100>).  A state maps basis indices to
    amplitudes, an operation maps states to states.  The semantics is written
    once over any ring of amplitudes with a phase function [e |-> exp(i pi e)].

    Modelled from the spec: the primitive gates ("parameterized NOT, phase
    rotation, controlled-NOT") are the host toolkit's and are not under src/;
    they are given their matrices in the host, each an eigen-operator
    Sum_k exp(i pi lambda_k e) P_k itself:
      - CNOT flips the target bit where the control bit is set;
      - Z with exponent e is diag(1, w), with w = exp(i pi e);
      - X with exponent e is ((1 + w) / 2) I + ((1 - w) / 2) NOT, with
        w = exp(i pi e); at exponent 1 it is NOT. *)

Record amplitudes : Type := {
  carrier :> Type;
  k0 : carrier;
  k1 : carrier;
  kadd : carrier -> carrier -> carrier;
  kmul : carrier -> carrier -> carrier;
  ksub : carrier -> carrier -> carrier;
  kopp : carrier -> carrier;
  khalf : carrier
}.

Definition complex_amplitudes : amplitudes :=
  {| carrier := C; k0 := C0; k1 := C1; kadd := Cadd; kmul := Cmul;
     ksub := Csub; kopp := Copp; khalf := Chalf |}.

Definition bit_position (wire : nat) : nat := 3 - wire.

Definition bit_is_set (wire x : nat) : bool := Nat.testbit x (bit_position wire).

Definition flip_bit (wire x : nat) : nat := Nat.lxor x (2 ^ bit_position wire).

Section Semantics.

Variable A : amplitudes.
Variable phase : Exponent -> A.

Definition state : Type := nat -> A.

Definition apply_op (o : operation nat) (psi : state) : state :=
  match o with
  | CNOT c t =>
    fun x => psi (if bit_is_set c x then flip_bit t x else x)
  | XPow q e =>
    fun x =>
      kadd A (kmul A (kmul A (khalf A) (kadd A (k1 A) (phase e))) (psi x))
             (kmul A (kmul A (khalf A) (ksub A (k1 A) (phase e)))
                     (psi (flip_bit q x)))
  | ZPow q e =>
    fun x => kmul A (if bit_is_set q x then phase e else k1 A) (psi x)
  end.

(** The operations act in the order they are emitted. *)
Definition apply_ops (ops : list (operation nat)) (psi : state) : state :=
  fold_left (fun st o => apply_op o st) ops psi.

Definition basis (j : nat) : state :=
  fun x => if Nat.eqb x j then k1 A else k0 A.

(** Entry [(i, j)] of the unitary of [ops]. *)
Definition unitary (ops : list (operation nat)) (i j : nat) : A :=
  apply_ops ops (basis j) i.

(** The entries both the decomposition and the eigen-operator reduce to:
    the identity outside the span of |0011> and |1100>, and on it
    (w + w') / 2 on the diagonal and (w - w') / 2 off it. *)
Definition closed_form (w w' : A) (i j : nat) : A :=
  if (Nat.eqb i 3 && Nat.eqb j 3) || (Nat.eqb i 12 && Nat.eqb j 12)
  then kmul A (khalf A) (kadd A w w')
  else if (Nat.eqb i 3 && Nat.eqb j 12) || (Nat.eqb i 12 && Nat.eqb j 3)
  then kmul A (khalf A) (ksub A w w')
  else if Nat.eqb i j then k1 A else k0 A.

End Semantics.

(** [exp(i pi e)] for an exponent whose symbols [rho] resolves. *)
Definition phase_of (rho : string -> R) (e : Exponent) : C :=
  cis (PI * exp_value rho e).

(** The wire of a qubit: its position in the gate's qubit tuple. *)
Fixpoint locate (qubits : list nat) (a : nat) : nat :=
  match qubits with
  | [] => O
  | x :: rest => if Nat.eqb x a then O else S (locate rest a)
  end.

(** The unitary, on the qubits [qubits] in this order, of operations that act
    on qubits among them. *)
Definition circuit_unitary (rho : string -> R) (qubits : list nat)
    (ops : list (operation nat)) (i j : nat) : C :=
  unitary complex_amplitudes (phase_of rho)
          (map (relabel (locate qubits)) ops) i j.

(** Modelled from the spec: the host's eigen-operator mechanism, "the
    operator Sum_i exp(i pi lambda_i theta) P_i over the eigen-components". *)
Definition eigen_operator (components : list (Z * matrix)) (theta : R)
    (i j : nat) : C :=
  fold_right
    (fun c acc =>
       Cadd (Cmul (cis (PI * (IZR (fst c) * theta))) (Q2C (mget (snd c) i j)))
            acc)
    C0 components.

(** The 16 x 16 operator of a gate whose symbols [rho] resolves. *)
Definition gate_operator (rho : string -> R) (gate : DoubleExcitationGate.t)
    : nat -> nat -> C :=
  eigen_operator (DoubleExcitationGate._eigen_components gate)
                 (exp_value rho (DoubleExcitationGate.half_turns gate)).


Definition equal_operators (n : nat) (U V : nat -> nat -> C) : Prop :=
  forall i j : nat, (i < n)%nat -> (j < n)%nat -> U i j = V i j.

(** ** The shape of the decomposition, piece by piece *)

Section Shape.

Context {Q : Type}.

Definition opening_network (p q r s : Q) : list (operation Q) :=
  [CNOT r s; CNOT q p; CNOT q r].

Definition closing_network (p q r s : Q) : list (operation Q) :=
  [CNOT q p; CNOT q r; CNOT r s].

Definition rq_phase_block (q r : Q) : list (operation Q) :=
  [ZPow q (PyFloat 0.125%R); CNOT r q; ZPow q (PyFloat (- 0.125)%R)].

Definition srq_parity_transform (q r s : Q) : list (operation Q) :=
  [CNOT s r; CNOT r q; CNOT s r].

Definition phase_parity_block (q r s : Q) : list (operation Q) :=
  rq_phase_block q r ++ srq_parity_transform q r s ++ rq_phase_block q r.

(** The sequence the code emits when the two powers of X have the
    exponents [e_minus] and [e_plus]: the block stands four times. *)
Definition decomposition_shape (e_minus e_plus : Exponent) (p q r s : Q)
    : list (operation Q) :=
  opening_network p q r s
  ++ [XPow q e_minus] ++ phase_parity_block q r s
  ++ [CNOT p q; X q] ++ phase_parity_block q r s
  ++ [XPow q e_plus] ++ phase_parity_block q r s
  ++ [CNOT p q; X q] ++ phase_parity_block q r s
  ++ closing_network p q r s.



End Shape.






(** ** The projectors the specification names

    Entry [(i, j)] of the diagonal projector onto every basis state but
    |0011> (index 3) and |1100> (index 12). *)
Definition entry_off_excitations (i j : nat) : Q :=
  if Nat.eqb i j && negb (Nat.eqb i 3) && negb (Nat.eqb i 12)
  then 1%Q else 0%Q.

Definition projector_off_excitations : matrix :=
  matrix_of_fun 16 16 entry_off_excitations.

(** The coordinates of |0011> + sign |1100>. *)
Definition excitation_vector (sign : Q) (i : nat) : Q :=
  if Nat.eqb i 3 then 1%Q else if Nat.eqb i 12 then sign else 0%Q.

(** Entry [(i, j)] of the rank-one projector v v^T / (v . v) onto
    v = |0011> + sign |1100>, for [sign] 1 or -1. *)
Definition entry_on_combination (sign : Q) (i j : nat) : Q :=
  ((1 # 2) * (excitation_vector sign i * excitation_vector sign j))%Q.

Definition projector_on_combination (sign : Q) : matrix :=
  matrix_of_fun 16 16 (entry_on_combination sign).

(** ** Measures of an operation sequence *)

Definition is_CNOT {Q : Type} (o : operation Q) : bool :=
  match o with
  | CNOT _ _ => true
  | _ => false
  end.

Definition is_XPow {Q : Type} (o : operation Q) : bool :=
  match o with
  | XPow _ _ => true
  | _ => false
  end.

Definition is_ZPow {Q : Type} (o : operation Q) : bool :=
  match o with
  | ZPow _ _ => true
  | _ => false
  end.

(** An operation that stays on the line p - q - r - s: a controlled-NOT
    between two neighbours, or a one-qubit operation on q. *)
Definition acts_on_neighbours {Q : Type} (p q r s : Q) (o : operation Q)
    : Prop :=
  match o with
  | CNOT c t =>
    (c = p /\ t = q) \/ (c = q /\ t = p) \/ (c = q /\ t = r)
    \/ (c = r /\ t = q) \/ (c = r /\ t = s) \/ (c = s /\ t = r)
  | XPow a _ => a = q
  | ZPow a _ => a = q
  end.

(** ** The generator of an eigen-gate *)

Definition mscale (n m : nat) (c : Q) (M : matrix) : matrix :=
  matrix_of_fun n m (fun i j => (c * mget M i j)%Q).

(** [Sum_i lambda_i P_i], the matrix whose exponential the eigen-components
    describe. *)
Definition generator (n : nat) (components : list (Z * matrix)) : matrix :=
  fold_right
    (fun c acc => madd n n (mscale n n (inject_Z (fst c)) (snd c)) acc)
    (zeros n n) components.

(** [|0011><1100| + |1100><0011|]. *)
Definition excitation_exchange : matrix :=
  matrix_of_fun 16 16 (fun i j =>
    if (Nat.eqb i 3 && Nat.eqb j 12) || (Nat.eqb i 12 && Nat.eqb j 3)
    then 1%Q else 0%Q).

(** ** ASCII strings *)

Definition is_ascii_char (c : Ascii.ascii) : bool :=
  (Ascii.nat_of_ascii c <? 128)%nat.

Fixpoint is_ascii_string (s : string) : bool :=
  match s with
  | EmptyString => true
  | String c rest => is_ascii_char c && is_ascii_string rest
  end.

(** ** Operators on amplitudes *)

(** The complex conjugate. *)
Definition Cconj (a : C) : C := (fst a, (- snd a)%R).

(** [f 0 + ... + f (n - 1)]. *)
Fixpoint amplitude_sum (A : amplitudes) (n : nat) (f : nat -> A) : A :=
  match n with
  | O => k0 A
  | S k => kadd A (amplitude_sum A k f) (f k)
  end.

(** The product of two [n x n] operators. *)
Definition operator_product (A : amplitudes) (n : nat)
    (U V : nat -> nat -> A) (i j : nat) : A :=
  amplitude_sum A n (fun k => kmul A (U i k) (V k j)).

Definition identity_operator (i j : nat) : C :=
  if Nat.eqb i j then C1 else C0.

(** The conjugate transpose of an operator. *)
Definition adjoint (U : nat -> nat -> C) (i j : nat) : C := Cconj (U j i).

(** Entry [(i, j)] of the rotation by the angle [x] between |0011> and
    |1100>: cos x + i sin x (|0011><1100| + |1100><0011|) on their span, and
    the identity on the other basis states. *)
Definition rotation_entry (x : R) (i j : nat) : C :=
  if (Nat.eqb i 3 && Nat.eqb j 3) || (Nat.eqb i 12 && Nat.eqb j 12)
  then (cos x, 0%R)
  else if (Nat.eqb i 3 && Nat.eqb j 12) || (Nat.eqb i 12 && Nat.eqb j 3)
  then (0%R, sin x)
  else if Nat.eqb i j then C1 else C0.

(** ** The claims of the specification that the code does not meet, as stated *)


(** C6 as stated, for a duration [d]: the stored exponent is [2 d / pi]. *)
Definition duration_stored_as_stated (d : R) : Prop :=
  exists g,
    DoubleExcitationGate.__init__ None None None (Some d) = Ok g
    /\ num_value (DoubleExcitationGate.half_turns g) = Some (2 * d / PI)%R.

(** [a == b] on exponents: numbers compare by value, symbols by name. *)
Definition py_eq (a b : Exponent) : Prop :=
  match num_value a, num_value b with
  | Some x, Some y => x = y
  | None, None => a = b
  | _, _ => False
  end.

(** C7 as stated, for a new exponent [x]: the half_turns of the
    re-parameterized gate equals [x]. *)
Definition with_exponent_stores_as_stated (g : DoubleExcitationGate.t)
    (x : Exponent) : Prop :=
  exists g',
    DoubleExcitationGate._with_exponent g x = Ok g'
    /\ py_eq (DoubleExcitationGate.half_turns g') x.

(** A gate some call of the constructor returns. *)
Definition constructed (g : DoubleExcitationGate.t) : Prop :=
  exists half_turns rads degs duration,
    DoubleExcitationGate.__init__ half_turns rads degs duration = Ok g.

(** The sixteen trees the generator yields when it returns. *)
Definition yielded_trees {Q : Type} (e_minus e_plus : Exponent) (p q r s : Q)
    : list (OP_TREE Q) :=
  let block :=
    Ops [Ops [op_list (rq_phase_block q r);
              op_list (srq_parity_transform q r s);
              op_list (rq_phase_block q r)]] in
  [ Op (CNOT r s); Op (CNOT q p); Op (CNOT q r); Op (XPow q e_minus); block;
    Op (CNOT p q); Op (X q); block; Op (XPow q e_plus); block;
    Op (CNOT p q); Op (X q);
    block; Op (CNOT q p); Op (CNOT q r); Op (CNOT r s) ].

(* ================================================================= *)
(** * Part II. Properties *)
(* ================================================================= *)

(** ** Canonical exponents *)

Section CanonFacts.
Local Open Scope R_scope.

Lemma canonicalize_spec :
  forall x : R,
    -1 < canonicalize 2 x <= 1
    /\ exists k : Z, x = canonicalize 2 x + 2 * IZR k.
Proof.
  intros x. unfold canonicalize, float_mod.
  destruct (base_Int_part (x / 2)) as [Hlo Hhi].
  set (n := Int_part (x / 2)) in *.
  destruct (Rlt_dec (2 / 2) (x - 2 * IZR n)) as [H | H].
  - split; [lra |]. exists (n + 1)%Z. rewrite plus_IZR. lra.
  - split; [lra |]. exists n. lra.
Qed.

Lemma canonicalize_unique :
  forall (x y : R) (k : Z),
    -1 < y <= 1 -> x = y + 2 * IZR k -> canonicalize 2 x = y.
Proof.
  intros x y k Hy Hx.
  destruct (canonicalize_spec x) as [Hc [k' Hk']].
  set (c := canonicalize 2 x) in *.
  assert (Hz : (k - k')%Z = 0%Z).
  { apply one_IZR_lt1. rewrite minus_IZR. lra. }
  assert (Hkk : IZR k = IZR k') by (f_equal; lia).
  lra.
Qed.

Lemma canonicalize_id :
  forall x : R, -1 < x <= 1 -> canonicalize 2 x = x.
Proof.
  intros x Hx. apply (canonicalize_unique x x 0 Hx). lra.
Qed.

Lemma canonicalize_periodic :
  forall (x : R) (k : Z), canonicalize 2 (x + 2 * IZR k) = canonicalize 2 x.
Proof.
  intros x k.
  destruct (canonicalize_spec x) as [Hc [k' Hk']].
  apply (canonicalize_unique _ _ (k' + k)%Z Hc).
  rewrite plus_IZR. lra.
Qed.

Lemma canonicalize_idempotent :
  forall x : R, canonicalize 2 (canonicalize 2 x) = canonicalize 2 x.
Proof.
  intros x. apply canonicalize_id. apply canonicalize_spec.
Qed.

Lemma canonicalize_even :
  forall k : Z, canonicalize 2 (IZR (2 * k)) = 0.
Proof.
  intros k. apply (canonicalize_unique _ 0 k); [lra |].
  rewrite mult_IZR. lra.
Qed.

Lemma canonicalize_odd :
  forall k : Z, canonicalize 2 (IZR (2 * k + 1)) = 1.
Proof.
  intros k. apply (canonicalize_unique _ 1 k); [lra |].
  rewrite plus_IZR, mult_IZR. lra.
Qed.

End CanonFacts.

Lemma canonicalize_one : canonicalize 2 1 = 1%R.
Proof. apply canonicalize_id. lra. Qed.

Lemma canonicalize_eighth : canonicalize 2 (1 * 0.125) = 0.125%R.
Proof. rewrite Rmult_1_l. apply canonicalize_id. lra. Qed.

Lemma canonicalize_minus_eighth : canonicalize 2 (1 * - 0.125) = (- 0.125)%R.
Proof. rewrite Rmult_1_l. apply canonicalize_id. lra. Qed.

(** ** Construction *)

Lemma init_half_turns_number :
  forall (theta : Exponent) (x : R),
    num_value theta = Some x ->
    DoubleExcitationGate.__init__ (Some theta) None None None
    = Ok {| DoubleExcitationGate._exponent := PyFloat (canonicalize 2 x) |}.
Proof.
  intros theta x H. unfold DoubleExcitationGate.__init__; simpl.
  unfold DoubleExcitationGate.EigenGate__init__; simpl.
  rewrite H. reflexivity.
Qed.


Lemma init_default :
  DoubleExcitationGate.__init__ None None None None
  = Ok {| DoubleExcitationGate._exponent := PyFloat 1%R |}.
Proof.
  unfold DoubleExcitationGate.__init__; simpl.
  unfold DoubleExcitationGate.EigenGate__init__; simpl.
  rewrite canonicalize_one. reflexivity.
Qed.

Lemma init_rads :
  forall x : R,
    DoubleExcitationGate.__init__ None (Some x) None None
    = Ok {| DoubleExcitationGate._exponent
            := PyFloat (canonicalize 2 (x / PI)) |}.
Proof. intros x. reflexivity. Qed.

Lemma init_degs :
  forall x : R,
    DoubleExcitationGate.__init__ None None (Some x) None
    = Ok {| DoubleExcitationGate._exponent
            := PyFloat (canonicalize 2 (x / 180)) |}.
Proof. intros x. reflexivity. Qed.

Lemma init_duration :
  forall d : R,
    DoubleExcitationGate.__init__ None None None (Some d)
    = Ok {| DoubleExcitationGate._exponent
            := PyFloat (canonicalize 2 (2 * d / PI)) |}.
Proof. intros d. reflexivity. Qed.

Lemma py_eq_one_spec :
  forall e : Exponent, py_eq_one e = true <-> num_value e = Some 1%R.
Proof.
  intros [z | x | n]; simpl.
  - rewrite Z.eqb_eq. split.
    + intros ->. reflexivity.
    + intros H. injection H as H. apply eq_IZR. exact H.
  - destruct (Req_dec_T x 1) as [E | E].
    + subst x. split; reflexivity.
    + split; [discriminate | intros H; injection H as H; contradiction].
  - split; discriminate.
Qed.

(** C3. The constructor raises its invalid-argument error exactly when more
    than one of half_turns, rads, degs, duration is not None, and it is the
    constructor's own error, raised by its first statement (the helper's
    error message never shows); when at most one is given it returns a gate,
    and with none given the gate's exponent is 1. *)
Theorem init_raises_iff_redundant :
  forall (half_turns : option Exponent) (rads degs duration : option R),
    let given :=
      count_not_None [is_not_None half_turns; is_not_None rads;
                      is_not_None degs; is_not_None duration] in
    ((exists e, DoubleExcitationGate.__init__ half_turns rads degs duration
                = Raise e)
     <-> (1 < given)%nat)
    /\ (DoubleExcitationGate.__init__ half_turns rads degs duration
        = Raise (ValueError
            "Redundant exponent specification. Use ONE of half_turns, rads, degs, or duration.")
        <-> (1 < given)%nat)
    /\ ((exists g, DoubleExcitationGate.__init__ half_turns rads degs duration
                   = Ok g)
        <-> (given <= 1)%nat)
    /\ (exists g, DoubleExcitationGate.__init__ None None None None = Ok g
                  /\ DoubleExcitationGate.half_turns g = PyFloat 1%R
                  /\ num_value (DoubleExcitationGate.half_turns g) = Some 1%R).
Proof.
  intros half_turns rads degs duration given. subst given.
  repeat split.
  all: try (destruct half_turns, rads, degs, duration; cbn;
            first [ intros [e H]; discriminate H
                  | intros [g H]; discriminate H
                  | intros H; discriminate H
                  | intros H; lia
                  | intros _; eexists; reflexivity
                  | intros _; reflexivity
                  | intros _; lia ]).
  exists {| DoubleExcitationGate._exponent := PyFloat 1%R |}.
  split; [exact init_default |]. split; reflexivity.
Qed.

(** C6 (as the code has it). [degs=180], [rads=pi] and [half_turns=1] store
    the exponent 1; a duration [d] stores [2 d / pi] reduced modulo 2 into
    (-1, 1], which is [2 d / pi] itself when that lies in (-1, 1]; so
    [duration = pi/2] stores 1. *)
Theorem unit_conversions_agree :
  (exists g, DoubleExcitationGate.__init__ None None (Some 180%R) None = Ok g
             /\ num_value (DoubleExcitationGate.half_turns g) = Some 1%R)
  /\ (exists g, DoubleExcitationGate.__init__ None (Some PI) None None = Ok g
                /\ num_value (DoubleExcitationGate.half_turns g) = Some 1%R)
  /\ (exists g, DoubleExcitationGate.__init__ (Some (PyInt 1)) None None None
                = Ok g
                /\ num_value (DoubleExcitationGate.half_turns g) = Some 1%R)
  /\ (exists g, DoubleExcitationGate.__init__ (Some (PyFloat 1%R)) None None None
                = Ok g
                /\ num_value (DoubleExcitationGate.half_turns g) = Some 1%R)
  /\ (forall d : R,
        exists (g : DoubleExcitationGate.t) (y : R) (k : Z),
          DoubleExcitationGate.__init__ None None None (Some d) = Ok g
          /\ num_value (DoubleExcitationGate.half_turns g) = Some y
          /\ y = canonicalize 2 (2 * d / PI)
          /\ (- 1 < y <= 1)%R
          /\ (2 * d / PI = y + 2 * IZR k)%R
          /\ ((- 1 < 2 * d / PI <= 1)%R -> y = (2 * d / PI)%R))
  /\ (exists g, DoubleExcitationGate.__init__ None None None (Some (PI / 2)%R)
                = Ok g
                /\ num_value (DoubleExcitationGate.half_turns g) = Some 1%R).
Proof.
  pose proof PI_neq0 as Hpi.
  split; [| split; [| split; [| split; [| split]]]].
  - eexists. split; [apply init_degs |]. simpl. f_equal.
    replace (180 / 180)%R with 1%R by lra. apply canonicalize_one.
  - eexists. split; [apply init_rads |]. simpl. f_equal.
    replace (PI / PI)%R with 1%R by (field; exact Hpi). apply canonicalize_one.
  - eexists. split; [apply (init_half_turns_number (PyInt 1) 1); reflexivity |].
    simpl. f_equal. apply canonicalize_one.
  - eexists. split; [apply (init_half_turns_number (PyFloat 1) 1); reflexivity |].
    simpl. f_equal. apply canonicalize_one.
  - intros d.
    destruct (canonicalize_spec (2 * d / PI)) as [Hrange [k Hk]].
    exists {| DoubleExcitationGate._exponent
              := PyFloat (canonicalize 2 (2 * d / PI)) |},
           (canonicalize 2 (2 * d / PI)), k.
    split; [apply init_duration |]. split; [reflexivity |].
    split; [reflexivity |]. split; [exact Hrange |]. split; [exact Hk |].
    intros Hd. apply canonicalize_id. exact Hd.
  - eexists. split; [apply init_duration |]. simpl. f_equal.
    replace (2 * (PI / 2) / PI)%R with 1%R by (field; exact Hpi).
    apply canonicalize_one.
Qed.

(** C6, refuted as the specification states it: the duration [pi] stores the
    exponent 0, not [2 pi / pi = 2]. *)
Lemma unit_conversions_counterexample :
  (exists g,
     DoubleExcitationGate.__init__ None None None (Some PI) = Ok g
     /\ num_value (DoubleExcitationGate.half_turns g) = Some 0%R)
  /\ ~ duration_stored_as_stated PI.
Proof.
  pose proof PI_neq0 as Hpi.
  assert (H2 : (2 * PI / PI)%R = 2%R) by (field; exact Hpi).
  assert (Hc : canonicalize 2 (2 * PI / PI) = 0%R).
  { rewrite H2. apply (canonicalize_unique 2 0 1); lra. }
  split.
  - eexists. split; [apply init_duration |]. simpl. f_equal. exact Hc.
  - intros [g [Hg Hv]]. rewrite init_duration in Hg. injection Hg as <-.
    simpl in Hv. injection Hv as Hv. rewrite Hc, H2 in Hv. lra.
Qed.

(** ** Re-parameterization *)

Lemma with_exponent_returns :
  forall (g : DoubleExcitationGate.t) (x : Exponent),
    DoubleExcitationGate._with_exponent g x
    = Ok {| DoubleExcitationGate._exponent
            := canonicalize_exponent (Some 2%Z) x |}.
Proof. intros g x. reflexivity. Qed.

Lemma canonicalize_exponent_spec :
  forall x : Exponent,
    match num_value x with
    | Some v =>
      exists (y : R) (k : Z),
        canonicalize_exponent (Some 2%Z) x = PyFloat y
        /\ (- 1 < y <= 1)%R /\ (v = y + 2 * IZR k)%R
        /\ ((- 1 < v <= 1)%R -> y = v)
    | None => canonicalize_exponent (Some 2%Z) x = x
    end.
Proof.
  intros x. unfold canonicalize_exponent.
  destruct (num_value x) as [v |]; [| reflexivity].
  destruct (canonicalize_spec v) as [Hrange [k Hk]].
  exists (canonicalize 2 v), k.
  split; [reflexivity |]. split; [exact Hrange |]. split; [exact Hk |].
  apply canonicalize_id.
Qed.

Lemma nth_error_allocate_old :
  forall (h : store) (g g0 : DoubleExcitationGate.t) (k : nat),
    nth_error h k = Some g0 ->
    nth_error (snd (allocate g h)) k = Some g0.
Proof.
  intros h g g0 k Hk. unfold allocate; simpl.
  rewrite nth_error_app1; [exact Hk |].
  apply nth_error_Some. rewrite Hk. discriminate.
Qed.

Lemma nth_error_allocate_new :
  forall (h : store) (g : DoubleExcitationGate.t),
    nth_error (snd (allocate g h)) (fst (allocate g h)) = Some g.
Proof.
  intros h g. unfold allocate; simpl.
  rewrite nth_error_app2 by lia. rewrite Nat.sub_diag. reflexivity.
Qed.

(** C7 (as the code has it). [_with_exponent(x)] on a gate of the store
    returns a new object: its half_turns is [x] stored canonically, that is
    [x] itself for a symbol and for a number in (-1, 1], and otherwise the
    float in (-1, 1] that differs from [x] by a multiple of 2; its
    eigen-components, canonical period and display symbols are those of the
    original; every object of the store, the original among them, is left as
    it was. *)
Theorem with_exponent_reparameterizes :
  forall (h : store) (self : nat) (g : DoubleExcitationGate.t) (x : Exponent),
    nth_error h self = Some g ->
    exists (r : nat) (h' : store) (g' : DoubleExcitationGate.t),
      with_exponent_in_store self x h = Some (Ok (r, h'))
      /\ DoubleExcitationGate._with_exponent g x = Ok g'
      /\ nth_error h' r = Some g'
      /\ nth_error h r = None
      /\ DoubleExcitationGate.half_turns g'
         = canonicalize_exponent (Some 2%Z) x
      /\ match num_value x with
         | Some v =>
           exists (y : R) (k : Z),
             DoubleExcitationGate.half_turns g' = PyFloat y
             /\ (- 1 < y <= 1)%R /\ (v = y + 2 * IZR k)%R
             /\ ((- 1 < v <= 1)%R -> y = v)
         | None => DoubleExcitationGate.half_turns g' = x
         end
      /\ DoubleExcitationGate._eigen_components g'
         = DoubleExcitationGate._eigen_components g
      /\ DoubleExcitationGate._canonical_exponent_period g'
         = DoubleExcitationGate._canonical_exponent_period g
      /\ (forall args,
            TextDiagramInfo.wire_symbols
              (DoubleExcitationGate.text_diagram_info g' args)
            = TextDiagramInfo.wire_symbols
                (DoubleExcitationGate.text_diagram_info g args))
      /\ nth_error h' self = Some g
      /\ (forall k g0, nth_error h k = Some g0 -> nth_error h' k = Some g0).
Proof.
  intros h self g x Hself.
  set (g' := {| DoubleExcitationGate._exponent
                := canonicalize_exponent (Some 2%Z) x |}).
  exists (length h), (h ++ [g']), g'.
  split; [| split; [| split; [| split; [| split; [| split]]]]].
  - unfold with_exponent_in_store. rewrite Hself.
    rewrite with_exponent_returns. reflexivity.
  - apply with_exponent_returns.
  - apply (nth_error_allocate_new h).
  - apply nth_error_None. lia.
  - reflexivity.
  - exact (canonicalize_exponent_spec x).
  - repeat split.
    + apply (nth_error_allocate_old h _ g self Hself).
    + intros k g0 Hk. apply (nth_error_allocate_old h _ g0 k Hk).
Qed.

Lemma with_exponent_reparameterizes_witness :
  let g := {| DoubleExcitationGate._exponent := PyFloat 1%R |} in
  nth_error [g] 0 = Some g
  /\ exists (r : nat) (h' : store) (g' : DoubleExcitationGate.t),
      with_exponent_in_store 0 (PyInt 2) [g] = Some (Ok (r, h'))
      /\ DoubleExcitationGate._with_exponent g (PyInt 2) = Ok g'
      /\ nth_error h' r = Some g'
      /\ nth_error [g] r = None
      /\ DoubleExcitationGate.half_turns g'
         = canonicalize_exponent (Some 2%Z) (PyInt 2)
      /\ match num_value (PyInt 2) with
         | Some v =>
           exists (y : R) (k : Z),
             DoubleExcitationGate.half_turns g' = PyFloat y
             /\ (- 1 < y <= 1)%R /\ (v = y + 2 * IZR k)%R
             /\ ((- 1 < v <= 1)%R -> y = v)
         | None => DoubleExcitationGate.half_turns g' = PyInt 2
         end
      /\ DoubleExcitationGate._eigen_components g'
         = DoubleExcitationGate._eigen_components g
      /\ DoubleExcitationGate._canonical_exponent_period g'
         = DoubleExcitationGate._canonical_exponent_period g
      /\ (forall args,
            TextDiagramInfo.wire_symbols
              (DoubleExcitationGate.text_diagram_info g' args)
            = TextDiagramInfo.wire_symbols
                (DoubleExcitationGate.text_diagram_info g args))
      /\ nth_error h' 0 = Some g
      /\ (forall k g0, nth_error [g] k = Some g0 -> nth_error h' k = Some g0).
Proof.
  split.
  - reflexivity.
  - apply (with_exponent_reparameterizes
             [{| DoubleExcitationGate._exponent := PyFloat 1%R |}] 0
             {| DoubleExcitationGate._exponent := PyFloat 1%R |} (PyInt 2)).
    reflexivity.
Defined.

Lemma with_exponent_two :
  forall g : DoubleExcitationGate.t,
    DoubleExcitationGate._with_exponent g (PyInt 2)
    = Ok {| DoubleExcitationGate._exponent := PyFloat 0%R |}.
Proof.
  intros g. rewrite with_exponent_returns. simpl.
  rewrite (canonicalize_unique 2 0 1); [reflexivity | lra | lra].
Qed.

(** C7, refuted as the specification states it: [_with_exponent(2)] of the
    default gate stores 0.0, and 0.0 == 2 is false. *)
Lemma with_exponent_counterexample :
  (exists g',
     DoubleExcitationGate._with_exponent
       {| DoubleExcitationGate._exponent := PyFloat 1%R |} (PyInt 2) = Ok g'
     /\ DoubleExcitationGate.half_turns g' = PyFloat 0%R)
  /\ ~ with_exponent_stores_as_stated
         {| DoubleExcitationGate._exponent := PyFloat 1%R |} (PyInt 2).
Proof.
  split.
  - eexists. split; [apply with_exponent_two | reflexivity].
  - intros [g' [Hg Heq]]. rewrite with_exponent_two in Hg.
    injection Hg as <-. unfold py_eq in Heq; simpl in Heq. lra.
Qed.

(** ** Textual form *)

Lemma append_nonempty_neq :
  forall a b : string, b <> EmptyString -> (a ++ b)%string <> a.
Proof.
  induction a as [| c a IH]; intros b Hb; simpl.
  - exact Hb.
  - intros H. injection H as H. exact (IH b Hb H).
Qed.

Lemma repr_starred_neq_bare :
  forall s : string,
    ("DoubleExcitation**" ++ s)%string <> "DoubleExcitation"%string.
Proof.
  intros s.
  change ("DoubleExcitation**" ++ s)%string
    with ("DoubleExcitation" ++ ("**" ++ s))%string.
  apply append_nonempty_neq. discriminate.
Qed.

Lemma Int_part_0 : Int_part 0 = 0%Z.
Proof. symmetry. apply Int_part_spec. simpl. lra. Qed.

Lemma python_float_repr_0 :
  forall other : R -> string, python_float_repr other 0%R = "0.0"%string.
Proof.
  intros other. unfold python_float_repr. rewrite Int_part_0.
  destruct (Req_dec_T 0 0) as [_ | H]; [reflexivity | contradiction].
Qed.

(** C9 (as the code has it). The repr is the bare name exactly when
    half_turns equals 1, and otherwise the name, two stars and the repr of
    the stored exponent; [_with_exponent(2)] of the default gate stores 0.0
    and prints as "DoubleExcitation**0.0". *)
Theorem repr_bare_name_iff_exponent_one :
  forall (float_repr : R -> string) (symbol_repr : Exponent -> string)
         (g : DoubleExcitationGate.t),
    (DoubleExcitationGate.__repr__ float_repr symbol_repr g
       = "DoubleExcitation"%string
     <-> num_value (DoubleExcitationGate.half_turns g) = Some 1%R)
    /\ (DoubleExcitationGate.__repr__ float_repr symbol_repr g
          = ("DoubleExcitation**"
             ++ py_repr float_repr symbol_repr
                  (DoubleExcitationGate.half_turns g))%string
        <-> num_value (DoubleExcitationGate.half_turns g) <> Some 1%R)
    /\ (exists g0 g2,
          DoubleExcitationGate.__init__ None None None None = Ok g0
          /\ DoubleExcitationGate._with_exponent g0 (PyInt 2) = Ok g2
          /\ DoubleExcitationGate.half_turns g2 = PyFloat 0%R
          /\ DoubleExcitationGate.__repr__ float_repr symbol_repr g2
             = ("DoubleExcitation**" ++ float_repr 0%R)%string
          /\ forall other : R -> string,
               DoubleExcitationGate.__repr__
                 (python_float_repr other) symbol_repr g2
               = "DoubleExcitation**0.0"%string).
Proof.
  intros float_repr symbol_repr g.
  assert (Hlast :
    exists g0 g2,
      DoubleExcitationGate.__init__ None None None None = Ok g0
      /\ DoubleExcitationGate._with_exponent g0 (PyInt 2) = Ok g2
      /\ DoubleExcitationGate.half_turns g2 = PyFloat 0%R
      /\ DoubleExcitationGate.__repr__ float_repr symbol_repr g2
         = ("DoubleExcitation**" ++ float_repr 0%R)%string
      /\ forall other : R -> string,
           DoubleExcitationGate.__repr__
             (python_float_repr other) symbol_repr g2
           = "DoubleExcitation**0.0"%string).
  { assert (Hr : forall fr,
      DoubleExcitationGate.__repr__ fr symbol_repr
        {| DoubleExcitationGate._exponent := PyFloat 0%R |}
      = ("DoubleExcitation**" ++ fr 0%R)%string).
    { intros fr. unfold DoubleExcitationGate.__repr__.
      cbn [DoubleExcitationGate.half_turns DoubleExcitationGate._exponent
           py_eq_one py_repr].
      destruct (Req_dec_T 0 1) as [H | _]; [lra | reflexivity]. }
    exists {| DoubleExcitationGate._exponent := PyFloat 1%R |},
           {| DoubleExcitationGate._exponent := PyFloat 0%R |}.
    split; [exact init_default |]. split; [apply with_exponent_two |].
    split; [reflexivity |]. split; [apply Hr |].
    intros other. rewrite Hr, python_float_repr_0. reflexivity. }
  unfold DoubleExcitationGate.__repr__.
  pose proof (py_eq_one_spec (DoubleExcitationGate.half_turns g)) as Hone.
  destruct (py_eq_one (DoubleExcitationGate.half_turns g)) eqn:E.
  - assert (Hv : num_value (DoubleExcitationGate.half_turns g) = Some 1%R)
      by (apply Hone; reflexivity).
    split; [| split].
    + split; intros _; [exact Hv | reflexivity].
    + split.
      * intros H. symmetry in H. exfalso. exact (repr_starred_neq_bare _ H).
      * intros H. contradiction.
    + exact Hlast.
  - assert (Hv : num_value (DoubleExcitationGate.half_turns g) <> Some 1%R).
    { intros H. apply Hone in H. discriminate H. }
    split; [| split].
    + split.
      * intros H. exfalso. exact (repr_starred_neq_bare _ H).
      * intros H. contradiction.
    + split; intros _; [exact Hv | reflexivity].
    + exact Hlast.
Qed.

(** C9, refuted as the specification states it: [_with_exponent(2)] of the
    default gate prints as "DoubleExcitation**0.0", not as
    "DoubleExcitation**2". *)
Lemma repr_counterexample :
  exists g0 g2,
    DoubleExcitationGate.__init__ None None None None = Ok g0
    /\ DoubleExcitationGate._with_exponent g0 (PyInt 2) = Ok g2
    /\ DoubleExcitationGate.__repr__
         (python_float_repr (fun _ => EmptyString)) (fun _ => EmptyString) g2
       = "DoubleExcitation**0.0"%string
    /\ DoubleExcitationGate.__repr__
         (python_float_repr (fun _ => EmptyString)) (fun _ => EmptyString) g2
       <> "DoubleExcitation**2"%string.
Proof.
  assert (Hr :
    DoubleExcitationGate.__repr__
      (python_float_repr (fun _ => EmptyString)) (fun _ => EmptyString)
      {| DoubleExcitationGate._exponent := PyFloat 0%R |}
    = "DoubleExcitation**0.0"%string).
  { unfold DoubleExcitationGate.__repr__.
    cbn [DoubleExcitationGate.half_turns DoubleExcitationGate._exponent
         py_eq_one py_repr].
    destruct (Req_dec_T 0 1) as [H | _]; [lra |].
    rewrite python_float_repr_0. reflexivity. }
  exists {| DoubleExcitationGate._exponent := PyFloat 1%R |},
         {| DoubleExcitationGate._exponent := PyFloat 0%R |}.
  split; [exact init_default |]. split; [apply with_exponent_two |].
  split; [exact Hr |]. rewrite Hr. discriminate.
Qed.

(** ** The Trotter-step template *)

Lemma labeling_after_subclass :
  forall (QubitId Hamiltonian : Type)
         (step : list QubitId -> Hamiltonian -> R -> option QubitId
                 -> OP_TREE QubitId)
         (n : nat) (qubits : list QubitId) (control_qubit : option QubitId),
    TrotterStepAlgorithm.labeling_after QubitId Hamiltonian
      (TrotterStepAlgorithm.subclass QubitId Hamiltonian step)
      n qubits control_qubit
    = (qubits, control_qubit).
Proof.
  intros QubitId Hamiltonian step n.
  induction n as [| n IH]; intros qubits control_qubit.
  - reflexivity.
  - simpl. apply IH.
Qed.

(** C8. The base class's [prepare] and [finish] emit no operation, its
    [step_qubit_permutation] returns the qubits and the control qubit it was
    given, and a driver that applies it after each step of an algorithm that
    does not override it keeps the labeling it started with. *)
Theorem base_defaults_are_identity :
  forall (QubitId Hamiltonian : Type)
         (step : list QubitId -> Hamiltonian -> R -> option QubitId
                 -> OP_TREE QubitId)
         (qubits : list QubitId) (hamiltonian : Hamiltonian)
         (control_qubit : option QubitId) (n_steps : Z)
         (omit_final_swaps : bool) (n : nat),
    let alg := TrotterStepAlgorithm.subclass QubitId Hamiltonian step in
    flatten_op_tree
      (TrotterStepAlgorithm.prepare QubitId Hamiltonian alg
         qubits hamiltonian control_qubit) = []
    /\ flatten_op_tree
         (TrotterStepAlgorithm.finish QubitId Hamiltonian alg
            qubits hamiltonian n_steps control_qubit omit_final_swaps) = []
    /\ TrotterStepAlgorithm.step_qubit_permutation QubitId Hamiltonian alg
         qubits control_qubit = (qubits, control_qubit)
    /\ TrotterStepAlgorithm.labeling_after QubitId Hamiltonian alg
         n qubits control_qubit = (qubits, control_qubit).
Proof.
  intros QubitId Hamiltonian step qubits hamiltonian control_qubit n_steps
         omit_final_swaps n alg.
  repeat split.
  apply labeling_after_subclass.
Qed.

(** C10. The module constant [DoubleExcitation] is the gate constructed with
    no argument: its half_turns is 1 and it prints as "DoubleExcitation"; the
    base class of the Trotter template fixes [controlled] to False, and so
    does every algorithm that does not override it. *)
Theorem module_constants :
  DoubleExcitation = DoubleExcitationGate.__init__ None None None None
  /\ (exists g,
        DoubleExcitation = Ok g
        /\ DoubleExcitationGate.half_turns g = PyFloat 1%R
        /\ num_value (DoubleExcitationGate.half_turns g) = Some 1%R
        /\ forall float_repr symbol_repr,
             DoubleExcitationGate.__repr__ float_repr symbol_repr g
             = "DoubleExcitation"%string)
  /\ (forall (QubitId Hamiltonian : Type),
        TrotterStepAlgorithm.base_controlled = false
        /\ forall step,
             TrotterStepAlgorithm.controlled QubitId Hamiltonian
               (TrotterStepAlgorithm.subclass QubitId Hamiltonian step)
             = false).
Proof.
  split; [reflexivity |]. split.
  - exists {| DoubleExcitationGate._exponent := PyFloat 1%R |}.
    split; [exact init_default |]. split; [reflexivity |].
    split; [reflexivity |].
    intros float_repr symbol_repr.
    unfold DoubleExcitationGate.__repr__; simpl.
    destruct (Req_dec_T 1 1) as [_ | H]; [reflexivity | contradiction].
  - intros QubitId Hamiltonian. split; [reflexivity | intros step; reflexivity].
Qed.

(** ** The eigen-components *)

Lemma row_eqb_sound :
  forall r s : list Q, row_eqb r s = true -> Forall2 Qeq r s.
Proof.
  induction r as [| x r IH]; intros [| y s] H; simpl in H;
    try discriminate; constructor.
  - apply andb_prop in H. apply Qeq_bool_eq. tauto.
  - apply andb_prop in H. apply IH. tauto.
Qed.

Lemma mat_eqb_sound :
  forall A B : matrix, mat_eqb A B = true -> mat_eq A B.
Proof.
  unfold mat_eq.
  induction A as [| r A IH]; intros [| s B] H; simpl in H;
    try discriminate; constructor.
  - apply andb_prop in H. apply row_eqb_sound. tauto.
  - apply andb_prop in H. apply IH. tauto.
Qed.

(** C4. The eigen-components are the triple: eigenvalue 0 with the diagonal
    projector onto the 14 basis states other than |0011> and |1100>,
    eigenvalue -1 with the rank-one projector onto |0011> - |1100>, and
    eigenvalue +1 with the rank-one projector onto |0011> + |1100>; the
    three projectors are symmetric, idempotent, mutually orthogonal, and sum
    to the 16 x 16 identity. *)
Theorem eigen_components_are_orthogonal_projectors :
  forall g : DoubleExcitationGate.t,
    exists P0 Pm Pp : matrix,
      DoubleExcitationGate._eigen_components g
      = [(0%Z, P0); ((-1)%Z, Pm); (1%Z, Pp)]
      /\ mat_eq P0 projector_off_excitations
      /\ Qeq (trace 16 P0) 14%Q
      /\ mat_eq Pm (projector_on_combination (- 1)%Q)
      /\ mat_eq Pp (projector_on_combination 1%Q)
      /\ (mat_eq (transpose 16 16 P0) P0
          /\ mat_eq (transpose 16 16 Pm) Pm
          /\ mat_eq (transpose 16 16 Pp) Pp)
      /\ (mat_eq (mmul 16 16 16 P0 P0) P0
          /\ mat_eq (mmul 16 16 16 Pm Pm) Pm
          /\ mat_eq (mmul 16 16 16 Pp Pp) Pp)
      /\ (mat_eq (mmul 16 16 16 P0 Pm) (zeros 16 16)
          /\ mat_eq (mmul 16 16 16 Pm P0) (zeros 16 16)
          /\ mat_eq (mmul 16 16 16 P0 Pp) (zeros 16 16)
          /\ mat_eq (mmul 16 16 16 Pp P0) (zeros 16 16)
          /\ mat_eq (mmul 16 16 16 Pm Pp) (zeros 16 16)
          /\ mat_eq (mmul 16 16 16 Pp Pm) (zeros 16 16))
      /\ mat_eq (madd 16 16 (madd 16 16 P0 Pm) Pp) (identity 16).
Proof.
  intros g.
  eexists. eexists. eexists.
  split; [reflexivity |].
  repeat split; apply mat_eqb_sound; vm_compute; reflexivity.
Qed.

(** ** The shape of the decomposition *)

Lemma X_pow_number :
  forall (Q : Type) (q : Q) (e : Exponent) (v : R),
    num_value e = Some v ->
    X_pow q e = Ok (XPow q (PyFloat (canonicalize 2 v))).
Proof.
  intros Q q e v H. unfold X_pow, exponent_mul. simpl. rewrite H. simpl.
  rewrite Rmult_1_l. reflexivity.
Qed.

Lemma Z_pow_eighth :
  forall (Q : Type) (q : Q),
    Z_pow q (PyFloat 0.125%R) = Ok (ZPow q (PyFloat 0.125%R)).
Proof.
  intros Q q. unfold Z_pow, exponent_mul. simpl.
  rewrite canonicalize_eighth. reflexivity.
Qed.

Lemma Z_pow_minus_eighth :
  forall (Q : Type) (q : Q),
    Z_pow q (PyFloat (- 0.125)%R) = Ok (ZPow q (PyFloat (- 0.125)%R)).
Proof.
  intros Q q. unfold Z_pow, exponent_mul. simpl.
  rewrite canonicalize_minus_eighth. reflexivity.
Qed.

Lemma py_neg_number :
  forall (e : Exponent) (v : R),
    num_value e = Some v ->
    exists e', py_neg e = Ok e' /\ num_value e' = Some (- v)%R.
Proof.
  intros [z | x | n] v H; simpl in H; try discriminate; injection H as <-.
  - eexists. split; [reflexivity |]. simpl. rewrite opp_IZR. reflexivity.
  - eexists. split; reflexivity.
Qed.

Lemma default_decompose_number :
  forall (Q : Type) (g : DoubleExcitationGate.t) (t : R) (p q r s : Q),
    num_value (DoubleExcitationGate.half_turns g) = Some t ->
    DoubleExcitationGate.default_decompose g [p; q; r; s]
    = (yielded_trees (PyFloat (canonicalize 2 (- t)))
                     (PyFloat (canonicalize 2 t)) p q r s,
       Ok tt).
Proof.
  intros Q g t p q r s Ht.
  destruct (py_neg_number _ _ Ht) as [e' [Hneg Hval]].
  unfold DoubleExcitationGate.default_decompose.
  rewrite Z_pow_eighth, Z_pow_minus_eighth, Hneg.
  cbn [bind eval gen_bind].
  rewrite (X_pow_number Q q e' _ Hval), (X_pow_number Q q _ _ Ht).
  reflexivity.
Qed.

Lemma default_decompose_symbol :
  forall (Q : Type) (g : DoubleExcitationGate.t) (n : string) (p q r s : Q),
    DoubleExcitationGate.half_turns g = Symbol n ->
    DoubleExcitationGate.default_decompose g [p; q; r; s]
    = ([Op (CNOT r s); Op (CNOT q p); Op (CNOT q r)],
       Raise (TypeError "bad operand type for unary -: 'Symbol'")).
Proof.
  intros Q g n p q r s Hn.
  unfold DoubleExcitationGate.default_decompose.
  rewrite Z_pow_eighth, Z_pow_minus_eighth, Hn.
  reflexivity.
Qed.

Lemma decomposed_operations_number :
  forall (Q : Type) (g : DoubleExcitationGate.t) (t : R) (p q r s : Q),
    num_value (DoubleExcitationGate.half_turns g) = Some t ->
    decomposed_operations g [p; q; r; s]
    = decomposition_shape (PyFloat (canonicalize 2 (- t)))
                          (PyFloat (canonicalize 2 t)) p q r s.
Proof.
  intros Q g t p q r s Ht. unfold decomposed_operations.
  rewrite (default_decompose_number Q g t p q r s Ht). reflexivity.
Qed.

Lemma decomposed_operations_symbol :
  forall (Q : Type) (g : DoubleExcitationGate.t) (n : string) (p q r s : Q),
    DoubleExcitationGate.half_turns g = Symbol n ->
    decomposed_operations g [p; q; r; s] = opening_network p q r s.
Proof.
  intros Q g n p q r s Hn. unfold decomposed_operations.
  rewrite (default_decompose_symbol Q g n p q r s Hn). reflexivity.
Qed.







(** ** The unitary of the decomposition, over any ring of amplitudes *)

Section DecompositionUnitary.

Variable A : amplitudes.
Variable phase : Exponent -> A.

Hypothesis amplitudes_ring :
  ring_theory (k0 A) (k1 A) (kadd A) (kmul A) (ksub A) (kopp A) eq.

Add Ring amplitudes_ring_structure : amplitudes_ring.

Variables e_minus e_plus : Exponent.

Let one : Exponent := PyFloat 1%R.
Let eighth : Exponent := PyFloat 0.125%R.
Let minus_eighth : Exponent := PyFloat (- 0.125)%R.

Hypothesis half_plus_half : kadd A (khalf A) (khalf A) = k1 A.
Hypothesis phase_one : phase one = kopp A (k1 A).
Hypothesis phase_minus_plus :
  kmul A (phase e_minus) (phase e_plus) = k1 A.
Hypothesis phase_eighths :
  kmul A (phase eighth) (phase minus_eighth) = k1 A.
Hypothesis phase_eighth_pow8 :
  kmul A
    (kmul A (kmul A (phase eighth) (phase eighth))
            (kmul A (phase eighth) (phase eighth)))
    (kmul A (kmul A (phase eighth) (phase eighth))
            (kmul A (phase eighth) (phase eighth)))
  = kopp A (k1 A).

Lemma two_halves : kmul A (kadd A (k1 A) (k1 A)) (khalf A) = k1 A.
Proof.
  transitivity (kadd A (khalf A) (khalf A)); [ring | exact half_plus_half].
Qed.

Lemma inverse_pow8 :
  forall a b : A,
    kmul A a b = k1 A ->
    kmul A (kmul A (kmul A a a) (kmul A a a))
           (kmul A (kmul A a a) (kmul A a a)) = kopp A (k1 A) ->
    kmul A (kmul A (kmul A b b) (kmul A b b))
           (kmul A (kmul A b b) (kmul A b b)) = kopp A (k1 A).
Proof.
  intros a b Hab Ha.
  set (a8 := kmul A (kmul A (kmul A a a) (kmul A a a))
                    (kmul A (kmul A a a) (kmul A a a))) in *.
  set (b8 := kmul A (kmul A (kmul A b b) (kmul A b b))
                    (kmul A (kmul A b b) (kmul A b b))).
  assert (E : kmul A a8 b8 = k1 A).
  { set (ab := kmul A a b) in *.
    transitivity (kmul A (kmul A (kmul A ab ab) (kmul A ab ab))
                         (kmul A (kmul A ab ab) (kmul A ab ab))).
    - unfold a8, b8, ab; ring.
    - rewrite Hab; ring. }
  rewrite Ha in E.
  transitivity (kopp A (kmul A (kopp A (k1 A)) b8));
    [ring | rewrite E; reflexivity].
Qed.

(** Every entry of the unitary of the decomposition on the wires 0, 1, 2, 3,
    computed by running the 48 operations on each basis state. *)
Lemma decomposition_entries :
  Forall (fun i =>
    Forall (fun j =>
      unitary A phase (decomposition_shape e_minus e_plus 0 1 2 3) i j
      = closed_form A (phase e_plus) (phase e_minus) i j)
      (seq 0 16))
    (seq 0 16).
Proof.
  pose proof two_halves as H2.
  pose proof (inverse_pow8 _ _ phase_eighths phase_eighth_pow8) as H8'.
  pose proof phase_minus_plus as Hw.
  pose proof phase_eighths as Hz.
  pose proof phase_eighth_pow8 as H8.
  pose proof phase_one as H1.
  unfold decomposition_shape, phase_parity_block, rq_phase_block,
    srq_parity_transform, opening_network, closing_network, closed_form, X.
  fold one. fold eighth. fold minus_eighth.
  clearbody one eighth minus_eighth.
  cbv [seq].
  repeat (first [apply Forall_nil | apply Forall_cons; cbv beta]).
  all: lazy - [carrier k0 k1 kadd kmul ksub kopp khalf].
  all: rewrite ?H1.
  all: ring [Hw Hz H8 H8' H2].
Qed.

Lemma decomposition_unitary_closed_form :
  forall i j : nat, (i < 16)%nat -> (j < 16)%nat ->
    unitary A phase (decomposition_shape e_minus e_plus 0 1 2 3) i j
    = closed_form A (phase e_plus) (phase e_minus) i j.
Proof.
  intros i j Hi Hj.
  pose proof decomposition_entries as H.
  rewrite Forall_forall in H.
  assert (Hi' : In i (seq 0 16)) by (apply in_seq; lia).
  assert (Hj' : In j (seq 0 16)) by (apply in_seq; lia).
  specialize (H i Hi'). rewrite Forall_forall in H.
  exact (H j Hj').
Qed.

End DecompositionUnitary.

(** ** Complex amplitudes and the eigen-operator *)

Section ComplexFacts.
Local Open Scope R_scope.

Lemma C_ring : ring_theory C0 C1 Cadd Cmul Csub Copp eq.
Proof.
constructor; intros;
  repeat match goal with x : C |- _ => destruct x end;
  unfold C0, C1, Cadd, Cmul, Csub, Copp; simpl; f_equal; ring.
Qed.

Lemma cis_plus : forall a b : R, cis (a + b) = Cmul (cis a) (cis b).
Proof.
intros a b. unfold cis, Cmul; simpl.
rewrite cos_plus, sin_plus. f_equal; ring.
Qed.

Lemma cis_0 : cis 0 = C1.
Proof. unfold cis, C1. rewrite cos_0, sin_0. reflexivity. Qed.

Lemma cis_PI : cis PI = Copp C1.
Proof. unfold cis, C1, Copp; simpl. rewrite cos_PI, sin_PI. f_equal; lra. Qed.

Lemma cis_eighth_pow8 : forall rho,
let z := phase_of rho (PyFloat 0.125) in
Cmul (Cmul (Cmul z z) (Cmul z z)) (Cmul (Cmul z z) (Cmul z z)) = Copp C1.
Proof.
intros rho z. subst z. unfold phase_of; simpl exp_value.
rewrite <- !cis_plus. rewrite <- cis_PI. f_equal. lra.
Qed.

Lemma phase_of_eighths :
forall rho : string -> R,
  Cmul (phase_of rho (PyFloat 0.125)) (phase_of rho (PyFloat (- 0.125))) = C1.
Proof.
intros rho. unfold phase_of; simpl exp_value.
rewrite <- cis_plus, <- cis_0. f_equal. lra.
Qed.

Lemma Chalf_plus_Chalf : Cadd Chalf Chalf = C1.
Proof. unfold Cadd, Chalf, C1; simpl. f_equal; lra. Qed.

Lemma Q2C_Qeq : forall a b : Q, Qeq a b -> Q2C a = Q2C b.
Proof. intros a b H. unfold Q2C. rewrite (Qeq_eqR a b H). reflexivity. Qed.

Lemma phase_of_one :
  forall rho : string -> R, phase_of rho (PyFloat 1) = Copp C1.
Proof.
  intros rho. unfold phase_of; simpl exp_value.
  rewrite <- cis_PI. f_equal. ring.
Qed.

Lemma cis_period :
  forall (x : R) (k : Z), cis (x + 2 * IZR k * PI) = cis x.
Proof.
  intros x k. unfold cis.
  destruct (Z_le_gt_dec 0 k) as [Hk | Hk].
  - rewrite <- (Z2Nat.id k Hk), <- INR_IZR_INZ.
    rewrite cos_period, sin_period. reflexivity.
  - assert (Hk' : (0 <= - k)%Z) by lia.
    rewrite <- (cos_period (x + 2 * IZR k * PI) (Z.to_nat (- k))).
    rewrite <- (sin_period (x + 2 * IZR k * PI) (Z.to_nat (- k))).
    rewrite INR_IZR_INZ, (Z2Nat.id _ Hk'), opp_IZR.
    f_equal; f_equal; ring.
Qed.

(** A canonical exponent has the phase of the exponent it stands for. *)
Lemma phase_of_canonical :
  forall (rho : string -> R) (x : R),
    phase_of rho (PyFloat (canonicalize 2 x)) = cis (PI * x).
Proof.
  intros rho x. unfold phase_of; simpl exp_value.
  destruct (canonicalize_spec x) as [_ [k Hk]].
  rewrite <- (cis_period (PI * canonicalize 2 x) k).
  f_equal. rewrite Hk at 2. ring.
Qed.

Lemma phase_of_minus_plus :
  forall (rho : string -> R) (t : R),
    Cmul (phase_of rho (PyFloat (canonicalize 2 (- t))))
         (phase_of rho (PyFloat (canonicalize 2 t))) = C1.
Proof.
  intros rho t. rewrite !phase_of_canonical, <- cis_plus, <- cis_0.
  f_equal. ring.
Qed.

End ComplexFacts.

Lemma eigen_component_entries :
  forall g : DoubleExcitationGate.t,
    forallb (fun i =>
      forallb (fun j =>
        match DoubleExcitationGate._eigen_components g with
        | [(_, P0); (_, Pm); (_, Pp)] =>
          Qeq_bool (mget P0 i j) (entry_off_excitations i j)
          && Qeq_bool (mget Pm i j) (entry_on_combination (- 1)%Q i j)
          && Qeq_bool (mget Pp i j) (entry_on_combination 1%Q i j)
        | _ => false
        end) (seq 0 16)) (seq 0 16) = true.
Proof. intros g. vm_compute. reflexivity. Qed.

Lemma gate_operator_entries :
  forall (rho : string -> R) (g : DoubleExcitationGate.t) (i j : nat),
    (i < 16)%nat -> (j < 16)%nat ->
    gate_operator rho g i j
    = Cadd (Cmul (cis (PI * (0 * exp_value rho (DoubleExcitationGate.half_turns g)))%R)
                 (Q2C (entry_off_excitations i j)))
       (Cadd (Cmul (cis (PI * (-1 * exp_value rho (DoubleExcitationGate.half_turns g)))%R)
                   (Q2C (entry_on_combination (- 1)%Q i j)))
         (Cadd (Cmul (cis (PI * (1 * exp_value rho (DoubleExcitationGate.half_turns g)))%R)
                     (Q2C (entry_on_combination 1%Q i j)))
               C0)).
Proof.
  intros rho g i j Hi Hj.
  pose proof (eigen_component_entries g) as H.
  rewrite forallb_forall in H.
  assert (Hi' : In i (seq 0 16)) by (apply in_seq; lia).
  assert (Hj' : In j (seq 0 16)) by (apply in_seq; lia).
  specialize (H i Hi'). rewrite forallb_forall in H. specialize (H j Hj').
  unfold gate_operator, eigen_operator.
  destruct (DoubleExcitationGate._eigen_components g)
    as [| [l0 P0] [| [lm Pm] [| [lp Pp] [| ? ?]]]] eqn:E; try discriminate H.
  injection E as <- <- <- <- <- <-.
  apply andb_prop in H. destruct H as [H Hp].
  apply andb_prop in H. destruct H as [H0 Hm].
  apply Qeq_bool_eq in H0, Hm, Hp.
  simpl.
  rewrite (Q2C_Qeq _ _ H0), (Q2C_Qeq _ _ Hm), (Q2C_Qeq _ _ Hp).
  reflexivity.
Qed.

Ltac nat_eqb_to_prop :=
  repeat match goal with
         | H : Nat.eqb _ _ = true |- _ => apply Nat.eqb_eq in H
         | H : Nat.eqb _ _ = false |- _ => apply Nat.eqb_neq in H
         end.

Lemma gate_operator_closed_form :
  forall (rho : string -> R) (g : DoubleExcitationGate.t) (i j : nat),
    (i < 16)%nat -> (j < 16)%nat ->
    gate_operator rho g i j
    = closed_form complex_amplitudes
        (cis (PI * exp_value rho (DoubleExcitationGate.half_turns g)))
        (cis (PI * - exp_value rho (DoubleExcitationGate.half_turns g))) i j.
Proof.
  intros rho g i j Hi Hj.
  rewrite (gate_operator_entries rho g i j Hi Hj).
  set (t := exp_value rho (DoubleExcitationGate.half_turns g)).
  replace (PI * (0 * t))%R with 0%R by lra.
  replace (PI * (-1 * t))%R with (PI * - t)%R by lra.
  replace (PI * (1 * t))%R with (PI * t)%R by lra.
  rewrite cis_0.
  destruct (cis (PI * t)) as [a b].
  destruct (cis (PI * - t)) as [c d].
  unfold closed_form, entry_off_excitations, entry_on_combination,
    excitation_vector.
  destruct (Nat.eqb i 3) eqn:Ei3; destruct (Nat.eqb j 3) eqn:Ej3;
    destruct (Nat.eqb i 12) eqn:Ei12; destruct (Nat.eqb j 12) eqn:Ej12;
    destruct (Nat.eqb i j) eqn:Eij;
    nat_eqb_to_prop; try (exfalso; lia);
    cbn [andb orb negb];
    cbn; unfold Cadd, Cmul, Csub, Q2C, C0, C1, Chalf, Q2R; cbn;
    f_equal; lra.
Qed.

Lemma relabel_decomposition_shape :
  forall (Q Q' : Type) (f : Q -> Q') (e_minus e_plus : Exponent) (p q r s : Q),
    map (relabel f) (decomposition_shape e_minus e_plus p q r s)
    = decomposition_shape e_minus e_plus (f p) (f q) (f r) (f s).
Proof. intros Q Q' f e_minus e_plus p q r s. reflexivity. Qed.

Lemma locate_distinct :
  forall p q r s : nat,
    NoDup [p; q; r; s] ->
    locate [p; q; r; s] p = 0
    /\ locate [p; q; r; s] q = 1
    /\ locate [p; q; r; s] r = 2
    /\ locate [p; q; r; s] s = 3.
Proof.
  intros p q r s H.
  inversion H as [| ? ? Hp H1]; subst.
  inversion H1 as [| ? ? Hq H2]; subst.
  inversion H2 as [| ? ? Hr H3]; subst.
  simpl in Hp, Hq, Hr.
  assert (Epq : Nat.eqb p q = false) by (apply Nat.eqb_neq; intuition congruence).
  assert (Epr : Nat.eqb p r = false) by (apply Nat.eqb_neq; intuition congruence).
  assert (Eps : Nat.eqb p s = false) by (apply Nat.eqb_neq; intuition congruence).
  assert (Eqr : Nat.eqb q r = false) by (apply Nat.eqb_neq; intuition congruence).
  assert (Eqs : Nat.eqb q s = false) by (apply Nat.eqb_neq; intuition congruence).
  assert (Ers : Nat.eqb r s = false) by (apply Nat.eqb_neq; intuition congruence).
  unfold locate.
  rewrite !Nat.eqb_refl, Epq, Epr, Eps, Eqr, Eqs, Ers.
  repeat split.
Qed.



Section Periodicity.
Local Open Scope R_scope.

Lemma eigen_operator_period :
  forall (components : list (Z * matrix)) (theta : R) (i j : nat),
    eigen_operator components (theta + 2) i j
    = eigen_operator components theta i j.
Proof.
  intros components theta i j. unfold eigen_operator.
  induction components as [| [lam P] rest IH]; simpl.
  - reflexivity.
  - rewrite IH. f_equal. f_equal.
    rewrite <- (cis_period (PI * (IZR lam * theta)) lam).
    f_equal. ring.
Qed.

Lemma eigen_operator_period_multiple :
  forall (components : list (Z * matrix)) (theta : R) (k : Z) (i j : nat),
    eigen_operator components (theta + 2 * IZR k) i j
    = eigen_operator components theta i j.
Proof.
  intros components theta k i j. unfold eigen_operator.
  induction components as [| [lam P] rest IH]; simpl.
  - reflexivity.
  - rewrite IH. f_equal. f_equal.
    rewrite <- (cis_period (PI * (IZR lam * theta)) (lam * k)).
    f_equal. rewrite mult_IZR. ring.
Qed.

Lemma eigen_operator_canonical :
  forall (components : list (Z * matrix)) (x : R) (i j : nat),
    eigen_operator components (canonicalize 2 x) i j
    = eigen_operator components x i j.
Proof.
  intros components x i j.
  destruct (canonicalize_spec x) as [_ [k Hk]].
  rewrite Hk at 2. symmetry. apply eigen_operator_period_multiple.
Qed.

End Periodicity.

(** The unitary of the emitted operations of a gate with a numeric exponent
    is, entry by entry, the operator of the gate. *)
Lemma circuit_unitary_exact :
  forall (rho : string -> R) (g : DoubleExcitationGate.t) (t : R)
         (p q r s : nat) (i j : nat),
    num_value (DoubleExcitationGate.half_turns g) = Some t ->
    NoDup [p; q; r; s] -> (i < 16)%nat -> (j < 16)%nat ->
    circuit_unitary rho [p; q; r; s] (decomposed_operations g [p; q; r; s]) i j
    = gate_operator rho g i j.
Proof.
  intros rho g t p q r s i j Ht Hnodup Hi Hj.
  unfold circuit_unitary.
  rewrite (decomposed_operations_number nat g t p q r s Ht).
  rewrite relabel_decomposition_shape.
  destruct (locate_distinct p q r s Hnodup) as (-> & -> & -> & ->).
  rewrite (decomposition_unitary_closed_form complex_amplitudes (phase_of rho)
             C_ring (PyFloat (canonicalize 2 (- t)))
             (PyFloat (canonicalize 2 t))
             Chalf_plus_Chalf (phase_of_one rho)
             (phase_of_minus_plus rho t)
             (phase_of_eighths rho) (cis_eighth_pow8 rho) i j Hi Hj).
  rewrite (gate_operator_closed_form rho g i j Hi Hj).
  rewrite !phase_of_canonical.
  assert (Hv : exp_value rho (DoubleExcitationGate.half_turns g) = t).
  { destruct (DoubleExcitationGate.half_turns g); simpl in Ht;
      try discriminate; injection Ht as <-; reflexivity. }
  rewrite Hv. reflexivity.
Qed.





(** C5. [_canonical_exponent_period] returns 2, and the operator
    Sum_i exp(i pi lambda_i theta) P_i of the gate is, entry by entry, the
    same at theta + 2 as at theta. *)
Theorem canonical_period_two :
  forall (g : DoubleExcitationGate.t),
    DoubleExcitationGate._canonical_exponent_period g = Some 2%Z
    /\ (forall (theta : R) (i j : nat),
          eigen_operator (DoubleExcitationGate._eigen_components g)
                         (theta + 2)%R i j
          = eigen_operator (DoubleExcitationGate._eigen_components g)
                           theta i j)
    /\ (forall (rho : string -> R) (x : R) (i j : nat),
          gate_operator rho {| DoubleExcitationGate._exponent := PyFloat (x + 2)%R |} i j
          = gate_operator rho {| DoubleExcitationGate._exponent := PyFloat x |} i j).
Proof.
  intros g. split; [reflexivity |]. split.
  - intros theta i j. apply eigen_operator_period.
  - intros rho x i j. unfold gate_operator; simpl exp_value.
    apply eigen_operator_period.
Qed.

(* ================================================================= *)
(** * Part III. Further properties of the code *)
(* ================================================================= *)

(** ** The decomposition as a sequence *)

Lemma half_turns_symbol_of_no_value :
  forall g : DoubleExcitationGate.t,
    num_value (DoubleExcitationGate.half_turns g) = None ->
    exists n, DoubleExcitationGate.half_turns g = Symbol n.
Proof.
  intros g H. destruct (DoubleExcitationGate.half_turns g) as [z | x | n];
    try discriminate H. exists n. reflexivity.
Qed.

(** X1. How the generator [default_decompose] ends: it raises ValueError,
    having yielded nothing, exactly when it is not given four qubits; on four
    qubits it raises TypeError after three operations exactly when the
    exponent is a symbol, and returns after sixteen yields exactly when the
    exponent is a number. *)
Theorem default_decompose_outcome :
  forall (Q : Type) (g : DoubleExcitationGate.t) (qubits : list Q),
    let out := DoubleExcitationGate.default_decompose g qubits in
    ((exists msg, out = ([], Raise (ValueError msg)))
     <-> length qubits <> 4)
    /\ ((exists msg, snd out = Raise (TypeError msg) /\ length (fst out) = 3)
        <-> length qubits = 4
            /\ num_value (DoubleExcitationGate.half_turns g) = None)
    /\ (snd out = Ok tt /\ length (fst out) = 16
        <-> length qubits = 4
            /\ num_value (DoubleExcitationGate.half_turns g) <> None).
Proof.
  intros Q g qubits out. subst out.
  destruct qubits as [| p [| q [| r [| s [| t rest]]]]].
  1, 2, 3, 4, 6:
    (split; [| split];
     (split;
      [ first [ intros _; simpl; lia
              | intros [msg [H _]]; discriminate H
              | intros [H _]; discriminate H ]
      | first [ intros _; eexists; reflexivity
              | intros [H _]; simpl in H; lia ] ])).
  destruct (num_value (DoubleExcitationGate.half_turns g)) as [v |] eqn:Hv.
  - rewrite (default_decompose_number Q g v p q r s Hv).
    split; [| split]; split.
    + intros [msg H]. discriminate H.
    + intros H. exfalso. apply H. reflexivity.
    + intros [msg [H _]]. discriminate H.
    + intros [_ H]. discriminate H.
    + intros _. split; [reflexivity | discriminate].
    + intros _. split; reflexivity.
  - destruct (half_turns_symbol_of_no_value g Hv) as [n Hn].
    rewrite (default_decompose_symbol Q g n p q r s Hn).
    split; [| split]; split.
    + intros [msg H]. discriminate H.
    + intros H. exfalso. apply H. reflexivity.
    + intros _. split; reflexivity.
    + intros _. eexists. split; reflexivity.
    + intros [H _]. discriminate H.
    + intros [_ H]. exfalso. apply H. reflexivity.
Qed.

(** X2. On four qubits a gate with a numeric exponent emits 48 operations:
    28 controlled-NOTs, 16 powers of Z and 4 powers of X; a gate with a
    symbolic exponent emits 3 operations, all controlled-NOTs. *)
Theorem decomposition_operation_counts :
  forall (Q : Type) (g : DoubleExcitationGate.t) (p q r s : Q),
    let ops := decomposed_operations g [p; q; r; s] in
    let numeric :=
      match num_value (DoubleExcitationGate.half_turns g) with
      | Some _ => true
      | None => false
      end in
    length ops = (if numeric then 48 else 3)
    /\ length (filter is_CNOT ops) = (if numeric then 28 else 3)
    /\ length (filter is_ZPow ops) = (if numeric then 16 else 0)
    /\ length (filter is_XPow ops) = (if numeric then 4 else 0).
Proof.
  intros Q g p q r s ops numeric. subst ops numeric.
  destruct (num_value (DoubleExcitationGate.half_turns g)) as [v |] eqn:Hv.
  - rewrite (decomposed_operations_number Q g v p q r s Hv).
    repeat split.
  - destruct (half_turns_symbol_of_no_value g Hv) as [n Hn].
    rewrite (decomposed_operations_symbol Q g n p q r s Hn).
    repeat split.
Qed.

(** X3. Every emitted controlled-NOT joins two neighbours of the line
    p - q - r - s (p and q, q and r, or r and s), and every emitted one-qubit
    operation acts on q. *)
Theorem decomposition_acts_on_neighbours :
  forall (Q : Type) (g : DoubleExcitationGate.t) (p q r s : Q),
    Forall (acts_on_neighbours p q r s) (decomposed_operations g [p; q; r; s]).
Proof.
  intros Q g p q r s.
  destruct (num_value (DoubleExcitationGate.half_turns g)) as [v |] eqn:Hv.
  - rewrite (decomposed_operations_number Q g v p q r s Hv).
    cbv [decomposition_shape opening_network closing_network
         phase_parity_block rq_phase_block srq_parity_transform app X].
    repeat (apply Forall_cons; [simpl; tauto |]).
    apply Forall_nil.
  - destruct (half_turns_symbol_of_no_value g Hv) as [n Hn].
    rewrite (decomposed_operations_symbol Q g n p q r s Hn).
    cbv [opening_network].
    repeat (apply Forall_cons; [simpl; tauto |]).
    apply Forall_nil.
Qed.

(** ** Construction and re-parameterization *)

(** X5. Whatever its arguments, the constructor stores either the symbol it
    was given as half_turns or a float in (-1, 1]. *)
Theorem constructor_stores_canonical_exponent :
  forall (half_turns : option Exponent) (rads degs duration : option R)
         (g : DoubleExcitationGate.t),
    DoubleExcitationGate.__init__ half_turns rads degs duration = Ok g ->
    (exists n, half_turns = Some (Symbol n)
               /\ DoubleExcitationGate.half_turns g = Symbol n)
    \/ (exists y, DoubleExcitationGate.half_turns g = PyFloat y
                  /\ (- 1 < y <= 1)%R).
Proof.
  intros half_turns rads degs duration g H.
  assert (Hc : forall v, exists y,
            PyFloat (canonicalize 2 v) = PyFloat y /\ (- 1 < y <= 1)%R).
  { intros v. exists (canonicalize 2 v). split; [reflexivity |].
    apply canonicalize_spec. }
  destruct half_turns as [[z | x | n] |], rads, degs, duration;
    try discriminate H; injection H as <-;
    first [ left; eexists; split; reflexivity | right; apply Hc ].
Qed.

Lemma constructor_stores_canonical_exponent_witness :
  DoubleExcitationGate.__init__ None None (Some 180%R) None
  = Ok {| DoubleExcitationGate._exponent
          := PyFloat (canonicalize 2 (180 / 180)) |}
  /\ ((exists n, None = Some (Symbol n)
                 /\ DoubleExcitationGate.half_turns
                      {| DoubleExcitationGate._exponent
                         := PyFloat (canonicalize 2 (180 / 180)) |}
                    = Symbol n)
      \/ (exists y, DoubleExcitationGate.half_turns
                      {| DoubleExcitationGate._exponent
                         := PyFloat (canonicalize 2 (180 / 180)) |}
                    = PyFloat y
                    /\ (- 1 < y <= 1)%R)).
Proof.
  split.
  - reflexivity.
  - apply (constructor_stores_canonical_exponent
             None None (Some 180%R) None). reflexivity.
Defined.

Lemma constructed_canonical :
  forall g : DoubleExcitationGate.t,
    constructed g ->
    canonicalize_exponent (Some 2%Z) (DoubleExcitationGate.half_turns g)
    = DoubleExcitationGate.half_turns g.
Proof.
  intros [e] [h [r [d [du H]]]]. simpl.
  assert (Hc : forall v,
            canonicalize_exponent (Some 2%Z) (PyFloat (canonicalize 2 v))
            = PyFloat (canonicalize 2 v)).
  { intros v. simpl. rewrite canonicalize_idempotent. reflexivity. }
  destruct h as [[z | x | n] |], r, d, du;
    try discriminate H; injection H as <-;
    first [ reflexivity | apply Hc ].
Qed.

(** X6. The angle units agree: [rads=x] stores x / pi and [degs=x] stores
    x / 180, each reduced modulo 2 into (-1, 1], and the same gate is built
    from [rads=x], from [degs=180 x / pi], from [duration=x / 2] and from
    [half_turns=x / pi]. *)
Theorem angle_units_agree :
  forall x : R,
    DoubleExcitationGate.__init__ None (Some x) None None
    = Ok {| DoubleExcitationGate._exponent
            := PyFloat (canonicalize 2 (x / PI)) |}
    /\ DoubleExcitationGate.__init__ None None (Some x) None
       = Ok {| DoubleExcitationGate._exponent
               := PyFloat (canonicalize 2 (x / 180)) |}
    /\ DoubleExcitationGate.__init__ None None (Some (180 * x / PI)%R) None
       = DoubleExcitationGate.__init__ None (Some x) None None
    /\ DoubleExcitationGate.__init__ None None None (Some (x / 2)%R)
       = DoubleExcitationGate.__init__ None (Some x) None None
    /\ DoubleExcitationGate.__init__ (Some (PyFloat (x / PI)%R)) None None None
       = DoubleExcitationGate.__init__ None (Some x) None None.
Proof.
  intros x. pose proof PI_neq0 as Hpi.
  split; [apply init_rads |]. split; [apply init_degs |].
  rewrite init_degs, init_duration, init_rads.
  rewrite (init_half_turns_number (PyFloat (x / PI)) (x / PI)) by reflexivity.
  repeat split; do 4 f_equal; field; exact Hpi.
Qed.

(** X7. Re-parameterizing a gate the constructor returned with its own
    half_turns gives the gate back. *)
Theorem with_exponent_round_trip :
  forall g : DoubleExcitationGate.t,
    constructed g ->
    DoubleExcitationGate._with_exponent g (DoubleExcitationGate.half_turns g)
    = Ok g.
Proof.
  intros g Hg. rewrite with_exponent_returns, (constructed_canonical g Hg).
  destruct g. reflexivity.
Qed.

Lemma constructed_duration_pi :
  constructed {| DoubleExcitationGate._exponent
                 := PyFloat (canonicalize 2 (2 * PI / PI)) |}.
Proof. exists None, None, None, (Some PI). apply init_duration. Qed.

Lemma with_exponent_round_trip_witness :
  constructed {| DoubleExcitationGate._exponent
                 := PyFloat (canonicalize 2 (2 * PI / PI)) |}
  /\ DoubleExcitationGate._with_exponent
       {| DoubleExcitationGate._exponent
          := PyFloat (canonicalize 2 (2 * PI / PI)) |}
       (PyFloat (canonicalize 2 (2 * PI / PI)))
     = Ok {| DoubleExcitationGate._exponent
             := PyFloat (canonicalize 2 (2 * PI / PI)) |}.
Proof.
  split.
  - exact constructed_duration_pi.
  - exact (with_exponent_round_trip _ constructed_duration_pi).
Defined.

Lemma constructed_default :
  constructed {| DoubleExcitationGate._exponent := PyFloat 1%R |}.
Proof. exists None, None, None, None. exact init_default. Qed.

Lemma constructed_zero :
  constructed {| DoubleExcitationGate._exponent := PyFloat 0%R |}.
Proof.
  exists (Some (PyInt 2)), None, None, None.
  exact (with_exponent_two {| DoubleExcitationGate._exponent := PyFloat 1%R |}).
Qed.

(** X4. In the decomposition of a gate the constructor returned with a
    numeric exponent, the exponent enters at two places only: operation 3
    (counting from 0) is X(q) with the exponent -half_turns stored
    canonically, and operation 24 is X(q) with the exponent half_turns; at
    every other place the decompositions of two such gates on the same qubits
    agree. *)
Theorem decomposition_exponent_positions :
  forall (Q : Type) (g1 g2 : DoubleExcitationGate.t) (t1 t2 : R)
         (p q r s : Q) (k : nat),
    constructed g1 -> constructed g2 ->
    num_value (DoubleExcitationGate.half_turns g1) = Some t1 ->
    num_value (DoubleExcitationGate.half_turns g2) = Some t2 ->
    let ops1 := decomposed_operations g1 [p; q; r; s] in
    let ops2 := decomposed_operations g2 [p; q; r; s] in
    nth_error ops1 3 = Some (XPow q (PyFloat (canonicalize 2 (- t1))))
    /\ nth_error ops1 24 = Some (XPow q (DoubleExcitationGate.half_turns g1))
    /\ (k <> 3 -> k <> 24 -> nth_error ops1 k = nth_error ops2 k).
Proof.
  intros Q g1 g2 t1 t2 p q r s k Hc1 Hc2 H1 H2 ops1 ops2. subst ops1 ops2.
  rewrite (decomposed_operations_number Q g1 t1 p q r s H1).
  rewrite (decomposed_operations_number Q g2 t2 p q r s H2).
  split; [reflexivity |]. split.
  - pose proof (constructed_canonical g1 Hc1) as Hcan.
    destruct (DoubleExcitationGate.half_turns g1) as [z | x | n];
      simpl in H1; try discriminate H1; injection H1 as <-.
    + simpl in Hcan. discriminate Hcan.
    + simpl in Hcan. injection Hcan as Hcan. simpl. rewrite Hcan. reflexivity.
  - intros H3 H24.
    do 48 (destruct k as [| k]; [first [reflexivity | congruence] |]).
    reflexivity.
Qed.

Lemma decomposition_exponent_positions_witness :
  constructed {| DoubleExcitationGate._exponent := PyFloat 1%R |}
  /\ constructed {| DoubleExcitationGate._exponent := PyFloat 0%R |}
  /\ nth_error
       (decomposed_operations
          {| DoubleExcitationGate._exponent := PyFloat 1%R |} [0; 1; 2; 3]) 3
     = Some (XPow 1 (PyFloat (canonicalize 2 (- (1)))))
  /\ nth_error
       (decomposed_operations
          {| DoubleExcitationGate._exponent := PyFloat 1%R |} [0; 1; 2; 3]) 24
     = Some (XPow 1 (PyFloat 1%R))
  /\ (5 <> 3 -> 5 <> 24 ->
      nth_error
        (decomposed_operations
           {| DoubleExcitationGate._exponent := PyFloat 1%R |} [0; 1; 2; 3]) 5
      = nth_error
          (decomposed_operations
             {| DoubleExcitationGate._exponent := PyFloat 0%R |} [0; 1; 2; 3])
          5).
Proof.
  split; [exact constructed_default |].
  split; [exact constructed_zero |].
  exact (decomposition_exponent_positions nat
           {| DoubleExcitationGate._exponent := PyFloat 1%R |}
           {| DoubleExcitationGate._exponent := PyFloat 0%R |}
           1%R 0%R 0 1 2 3 5
           constructed_default constructed_zero eq_refl eq_refl).
Defined.

(** ** Textual form and diagram *)

(** X8. A gate built with an integer exponent prints as the bare name when
    the integer is odd, and as the name, two stars and the repr of 0.0 when
    it is even. *)
Theorem repr_of_integer_exponent :
  forall (float_repr : R -> string) (symbol_repr : Exponent -> string)
         (z : Z),
    exists g,
      DoubleExcitationGate.__init__ (Some (PyInt z)) None None None = Ok g
      /\ DoubleExcitationGate.half_turns g
         = PyFloat (if Z.odd z then 1%R else 0%R)
      /\ DoubleExcitationGate.__repr__ float_repr symbol_repr g
         = (if Z.odd z
            then "DoubleExcitation"
            else "DoubleExcitation**" ++ float_repr 0%R)%string.
Proof.
  intros float_repr symbol_repr z.
  exists {| DoubleExcitationGate._exponent
            := PyFloat (if Z.odd z then 1%R else 0%R) |}.
  assert (Hc : canonicalize 2 (IZR z) = if Z.odd z then 1%R else 0%R).
  { destruct (Z.odd z) eqn:Hodd.
    - apply Z.odd_spec in Hodd. destruct Hodd as [m ->].
      apply canonicalize_odd.
    - rewrite <- Z.negb_even in Hodd. apply negb_false_iff in Hodd.
      apply Z.even_spec in Hodd. destruct Hodd as [m ->].
      apply canonicalize_even. }
  split.
  - rewrite (init_half_turns_number (PyInt z) (IZR z) eq_refl), Hc.
    reflexivity.
  - split; [reflexivity |].
    unfold DoubleExcitationGate.__repr__.
    cbn [DoubleExcitationGate.half_turns DoubleExcitationGate._exponent
         py_eq_one py_repr].
    destruct (Z.odd z).
    + destruct (Req_dec_T 1 1) as [_ | H]; [reflexivity | contradiction].
    + destruct (Req_dec_T 0 1) as [H | _]; [lra | reflexivity].
Qed.

(** X9. The diagram information reports the gate's half_turns as its
    exponent and four wire symbols, the same for the first two wires, the same
    for the last two, and different between the two pairs; the symbols are
    pure ASCII exactly when [use_unicode_characters] is off (with it on, none
    of them is). *)
Theorem text_diagram_info_symbols :
  forall (g : DoubleExcitationGate.t) (args : TextDiagramInfoArgs.t),
    let info := DoubleExcitationGate.text_diagram_info g args in
    TextDiagramInfo.exponent info = DoubleExcitationGate.half_turns g
    /\ (exists a b : string,
          TextDiagramInfo.wire_symbols info = [a; a; b; b] /\ a <> b)
    /\ forallb is_ascii_string (TextDiagramInfo.wire_symbols info)
       = negb (TextDiagramInfoArgs.use_unicode_characters args)
    /\ existsb is_ascii_string (TextDiagramInfo.wire_symbols info)
       = negb (TextDiagramInfoArgs.use_unicode_characters args).
Proof.
  intros g [[|]]; cbv zeta; (split; [reflexivity |]);
    (split; [eexists; eexists; split; [reflexivity | discriminate] |]);
    split; vm_compute; reflexivity.
Qed.

(** ** The operator of the gate *)

(** X10. The generator Sum_i lambda_i P_i of the eigen-components is
    |0011><1100| + |1100><0011|: ones at [3, 12] and [12, 3] and zeros
    elsewhere; its square is the projector onto the span of |0011> and
    |1100>. *)
Theorem generator_is_excitation_exchange :
  forall g : DoubleExcitationGate.t,
    mat_eq (generator 16 (DoubleExcitationGate._eigen_components g))
           excitation_exchange
    /\ mat_eq (mmul 16 16 16
                 (generator 16 (DoubleExcitationGate._eigen_components g))
                 (generator 16 (DoubleExcitationGate._eigen_components g)))
              (madd 16 16 (projector_on_combination (- 1)%Q)
                          (projector_on_combination 1%Q)).
Proof.
  intros g. split; apply mat_eqb_sound; vm_compute; reflexivity.
Qed.

Section ClosedFormProduct.

Variable A : amplitudes.
Hypothesis amplitudes_ring :
  ring_theory (k0 A) (k1 A) (kadd A) (kmul A) (ksub A) (kopp A) eq.
Add Ring closed_form_ring : amplitudes_ring.
Hypothesis half_plus_half : kadd A (khalf A) (khalf A) = k1 A.

Lemma closed_form_product_entries :
  forall a a' b b' : A,
    Forall (fun i =>
      Forall (fun j =>
        operator_product A 16 (closed_form A a a') (closed_form A b b') i j
        = closed_form A (kmul A a b) (kmul A a' b') i j)
        (seq 0 16))
      (seq 0 16).
Proof.
  intros a a' b b'.
  assert (H2 : kmul A (kadd A (k1 A) (k1 A)) (khalf A) = k1 A).
  { transitivity (kadd A (khalf A) (khalf A)); [ring | exact half_plus_half]. }
  cbv [seq].
  repeat (first [apply Forall_nil | apply Forall_cons; cbv beta]).
  all: lazy - [carrier k0 k1 kadd kmul ksub kopp khalf].
  all: ring [H2].
Qed.
End ClosedFormProduct.

Lemma amplitude_sum_ext :
  forall (A : amplitudes) (n : nat) (f f' : nat -> A),
    (forall k, (k < n)%nat -> f k = f' k) ->
    amplitude_sum A n f = amplitude_sum A n f'.
Proof.
  intros A n f f'. induction n as [| n IH]; intros H; simpl.
  - reflexivity.
  - rewrite IH by (intros k Hk; apply H; lia).
    rewrite (H n) by lia. reflexivity.
Qed.

Lemma operator_product_ext :
  forall (A : amplitudes) (n : nat) (U U' V V' : nat -> nat -> A) (i j : nat),
    (i < n)%nat -> (j < n)%nat ->
    (forall a b, (a < n)%nat -> (b < n)%nat -> U a b = U' a b) ->
    (forall a b, (a < n)%nat -> (b < n)%nat -> V a b = V' a b) ->
    operator_product A n U V i j = operator_product A n U' V' i j.
Proof.
  intros A n U U' V V' i j Hi Hj HU HV. unfold operator_product.
  apply amplitude_sum_ext. intros k Hk.
  rewrite (HU i k Hi Hk), (HV k j Hk Hj). reflexivity.
Qed.

Section OperatorFacts.
Local Open Scope R_scope.

Lemma gate_operator_rotation :
  forall (rho : string -> R) (g : DoubleExcitationGate.t) (i j : nat),
    (i < 16)%nat -> (j < 16)%nat ->
    gate_operator rho g i j
    = rotation_entry (PI * exp_value rho (DoubleExcitationGate.half_turns g))
                     i j.
Proof.
  intros rho g i j Hi Hj.
  rewrite (gate_operator_closed_form rho g i j Hi Hj).
  set (t := exp_value rho (DoubleExcitationGate.half_turns g)).
  replace (PI * - t) with (- (PI * t)) by ring.
  unfold closed_form, rotation_entry, cis.
  rewrite cos_neg, sin_neg.
  destruct ((Nat.eqb i 3 && Nat.eqb j 3) || (Nat.eqb i 12 && Nat.eqb j 12))%bool.
  - cbn. unfold Cmul, Cadd, Chalf; simpl. f_equal; lra.
  - destruct ((Nat.eqb i 3 && Nat.eqb j 12) || (Nat.eqb i 12 && Nat.eqb j 3))%bool.
    + cbn. unfold Cmul, Csub, Chalf; simpl. f_equal; lra.
    + reflexivity.
Qed.

Lemma rotation_entry_adjoint :
  forall (x : R) (i j : nat),
    Cconj (rotation_entry x j i) = rotation_entry (- x) i j.
Proof.
  intros x i j. unfold rotation_entry, Cconj.
  rewrite cos_neg, sin_neg.
  rewrite (Nat.eqb_sym j i).
  destruct (Nat.eqb i 3), (Nat.eqb j 3), (Nat.eqb i 12), (Nat.eqb j 12),
    (Nat.eqb i j); cbn; unfold C1, C0; f_equal; lra.
Qed.

Lemma rotation_entry_0 :
  forall i j : nat, rotation_entry 0 i j = identity_operator i j.
Proof.
  intros i j. unfold rotation_entry, identity_operator.
  rewrite cos_0, sin_0.
  destruct (Nat.eqb i 3) eqn:Ei3; destruct (Nat.eqb j 3) eqn:Ej3;
    destruct (Nat.eqb i 12) eqn:Ei12; destruct (Nat.eqb j 12) eqn:Ej12;
    destruct (Nat.eqb i j) eqn:Eij;
    nat_eqb_to_prop; try (exfalso; lia); reflexivity.
Qed.

End OperatorFacts.

Lemma gate_operator_product :
  forall (rho : string -> R) (g1 g2 g3 : DoubleExcitationGate.t),
    exp_value rho (DoubleExcitationGate.half_turns g3)
    = (exp_value rho (DoubleExcitationGate.half_turns g1)
       + exp_value rho (DoubleExcitationGate.half_turns g2))%R ->
    equal_operators 16
      (operator_product complex_amplitudes 16
         (gate_operator rho g1) (gate_operator rho g2))
      (gate_operator rho g3).
Proof.
  intros rho g1 g2 g3 Hsum i j Hi Hj.
  rewrite (operator_product_ext complex_amplitudes 16
             (gate_operator rho g1) _ (gate_operator rho g2) _ i j Hi Hj
             (gate_operator_closed_form rho g1)
             (gate_operator_closed_form rho g2)).
  set (t1 := exp_value rho (DoubleExcitationGate.half_turns g1)) in *.
  set (t2 := exp_value rho (DoubleExcitationGate.half_turns g2)) in *.
  pose proof (closed_form_product_entries complex_amplitudes C_ring
                Chalf_plus_Chalf
                (cis (PI * t1)) (cis (PI * - t1))
                (cis (PI * t2)) (cis (PI * - t2)))
    as H.
  rewrite Forall_forall in H.
  assert (Hi' : In i (seq 0 16)) by (apply in_seq; lia).
  assert (Hj' : In j (seq 0 16)) by (apply in_seq; lia).
  specialize (H i Hi'). rewrite Forall_forall in H. rewrite (H j Hj').
  rewrite (gate_operator_closed_form rho g3 i j Hi Hj).
  f_equal.
  - rewrite Hsum. simpl. rewrite <- cis_plus. f_equal. ring.
  - rewrite Hsum. simpl. rewrite <- cis_plus. f_equal. ring.
Qed.

Lemma adjoint_gate_operator :
  forall (rho : string -> R) (g : DoubleExcitationGate.t) (i j : nat),
    (i < 16)%nat -> (j < 16)%nat ->
    adjoint (gate_operator rho g) i j
    = gate_operator rho
        {| DoubleExcitationGate._exponent
           := PyFloat
                (- exp_value rho (DoubleExcitationGate.half_turns g)) |} i j.
Proof.
  intros rho g i j Hi Hj. unfold adjoint.
  rewrite (gate_operator_rotation rho g j i Hj Hi).
  rewrite (gate_operator_rotation rho _ i j Hi Hj).
  rewrite rotation_entry_adjoint. f_equal.
  simpl. ring.
Qed.

Lemma gate_operator_zero :
  forall (rho : string -> R) (g : DoubleExcitationGate.t) (i j : nat),
    exp_value rho (DoubleExcitationGate.half_turns g) = 0%R ->
    (i < 16)%nat -> (j < 16)%nat ->
    gate_operator rho g i j = identity_operator i j.
Proof.
  intros rho g i j H0 Hi Hj.
  rewrite (gate_operator_rotation rho g i j Hi Hj), H0, Rmult_0_r.
  apply rotation_entry_0.
Qed.

(** X11. For every exponent theta the operator of the gate is the rotation
    by pi theta between |0011> and |1100>: cos(pi theta) on the diagonal and
    i sin(pi theta) off it on their span, and the identity on the 14 other
    basis states. *)
Theorem gate_is_excitation_rotation :
  forall (rho : string -> R) (g : DoubleExcitationGate.t),
    equal_operators 16
      (gate_operator rho g)
      (rotation_entry
         (PI * exp_value rho (DoubleExcitationGate.half_turns g))).
Proof.
  intros rho g i j Hi Hj. apply gate_operator_rotation; assumption.
Qed.

(** X12. Exponents add under composition: the product of the operators of
    two gates, in either order, is the operator of a gate whose exponent is
    the sum of theirs. *)
Theorem exponents_add_under_composition :
  forall (rho : string -> R) (g1 g2 g3 : DoubleExcitationGate.t),
    exp_value rho (DoubleExcitationGate.half_turns g3)
    = (exp_value rho (DoubleExcitationGate.half_turns g1)
       + exp_value rho (DoubleExcitationGate.half_turns g2))%R ->
    equal_operators 16
      (operator_product complex_amplitudes 16
         (gate_operator rho g1) (gate_operator rho g2))
      (gate_operator rho g3)
    /\ equal_operators 16
         (operator_product complex_amplitudes 16
            (gate_operator rho g2) (gate_operator rho g1))
         (gate_operator rho g3).
Proof.
  intros rho g1 g2 g3 Hsum. split.
  - apply gate_operator_product. exact Hsum.
  - apply gate_operator_product. rewrite Hsum. apply Rplus_comm.
Qed.

Lemma exponents_add_under_composition_witness :
  exp_value (fun _ => (1 / 3)%R) (PyFloat (1 / 3 + 2)%R)
  = (exp_value (fun _ => (1 / 3)%R) (Symbol "theta")
     + exp_value (fun _ => (1 / 3)%R) (PyInt 2))%R
  /\ equal_operators 16
       (operator_product complex_amplitudes 16
          (gate_operator (fun _ => (1 / 3)%R)
             {| DoubleExcitationGate._exponent := Symbol "theta" |})
          (gate_operator (fun _ => (1 / 3)%R)
             {| DoubleExcitationGate._exponent := PyInt 2 |}))
       (gate_operator (fun _ => (1 / 3)%R)
          {| DoubleExcitationGate._exponent := PyFloat (1 / 3 + 2)%R |})
  /\ equal_operators 16
       (operator_product complex_amplitudes 16
          (gate_operator (fun _ => (1 / 3)%R)
             {| DoubleExcitationGate._exponent := PyInt 2 |})
          (gate_operator (fun _ => (1 / 3)%R)
             {| DoubleExcitationGate._exponent := Symbol "theta" |}))
       (gate_operator (fun _ => (1 / 3)%R)
          {| DoubleExcitationGate._exponent := PyFloat (1 / 3 + 2)%R |}).
Proof.
  split; [reflexivity |].
  exact (exponents_add_under_composition (fun _ => (1 / 3)%R)
           {| DoubleExcitationGate._exponent := Symbol "theta" |}
           {| DoubleExcitationGate._exponent := PyInt 2 |}
           {| DoubleExcitationGate._exponent := PyFloat (1 / 3 + 2)%R |}
           eq_refl).
Defined.

(** X13. The operator of the gate is unitary for every exponent: its
    conjugate transpose is its inverse on both sides. *)
Theorem gate_operator_is_unitary :
  forall (rho : string -> R) (g : DoubleExcitationGate.t),
    equal_operators 16
      (operator_product complex_amplitudes 16
         (adjoint (gate_operator rho g)) (gate_operator rho g))
      identity_operator
    /\ equal_operators 16
         (operator_product complex_amplitudes 16
            (gate_operator rho g) (adjoint (gate_operator rho g)))
         identity_operator.
Proof.
  intros rho g.
  set (g' := {| DoubleExcitationGate._exponent
                := PyFloat
                     (- exp_value rho (DoubleExcitationGate.half_turns g)) |}).
  set (g0 := {| DoubleExcitationGate._exponent := PyInt 0 |}).
  assert (Hneg : exp_value rho (DoubleExcitationGate.half_turns g')
                 = (- exp_value rho (DoubleExcitationGate.half_turns g))%R)
    by reflexivity.
  split; intros i j Hi Hj.
  - rewrite (operator_product_ext complex_amplitudes 16
               (adjoint (gate_operator rho g)) (gate_operator rho g')
               (gate_operator rho g) (gate_operator rho g) i j Hi Hj
               (adjoint_gate_operator rho g) (fun _ _ _ _ => eq_refl)).
    assert (Hs : exp_value rho (DoubleExcitationGate.half_turns g0)
                 = (exp_value rho (DoubleExcitationGate.half_turns g')
                    + exp_value rho (DoubleExcitationGate.half_turns g))%R)
      by (rewrite Hneg; simpl; ring).
    rewrite (gate_operator_product rho g' g g0 Hs i j Hi Hj).
    apply gate_operator_zero; [reflexivity | assumption | assumption].
  - rewrite (operator_product_ext complex_amplitudes 16
               (gate_operator rho g) (gate_operator rho g)
               (adjoint (gate_operator rho g)) (gate_operator rho g') i j Hi Hj
               (fun _ _ _ _ => eq_refl) (adjoint_gate_operator rho g)).
    assert (Hs : exp_value rho (DoubleExcitationGate.half_turns g0)
                 = (exp_value rho (DoubleExcitationGate.half_turns g)
                    + exp_value rho (DoubleExcitationGate.half_turns g'))%R)
      by (rewrite Hneg; simpl; ring).
    rewrite (gate_operator_product rho g g' g0 Hs i j Hi Hj).
    apply gate_operator_zero; [reflexivity | assumption | assumption].
Qed.

(** ** The decomposition and the operator *)

(** X14. For a numeric exponent theta and four distinct qubits, the
    generator of [DoubleExcitationGate(half_turns=theta)] returns and the
    unitary of the operations it emitted is the operator
    Sum_i exp(i pi lambda_i theta) P_i entry by entry: no global phase is
    left over. *)
Theorem decomposition_equals_gate_exactly :
  forall (rho : string -> R) (theta : Exponent) (x : R) (p q r s : nat),
    num_value theta = Some x ->
    NoDup [p; q; r; s] ->
    exists g,
      DoubleExcitationGate.__init__ (Some theta) None None None = Ok g
      /\ snd (DoubleExcitationGate.default_decompose g [p; q; r; s]) = Ok tt
      /\ equal_operators 16
           (circuit_unitary rho [p; q; r; s]
              (decomposed_operations g [p; q; r; s]))
           (eigen_operator (DoubleExcitationGate._eigen_components g) x).
Proof.
  intros rho theta x p q r s Hx Hnodup.
  set (g := {| DoubleExcitationGate._exponent := PyFloat (canonicalize 2 x) |}).
  assert (Hg : num_value (DoubleExcitationGate.half_turns g)
               = Some (canonicalize 2 x)) by reflexivity.
  exists g.
  split; [exact (init_half_turns_number theta x Hx) |].
  split; [rewrite (default_decompose_number nat g _ p q r s Hg); reflexivity |].
  intros i j Hi Hj.
  rewrite (circuit_unitary_exact rho g _ p q r s i j Hg Hnodup Hi Hj).
  unfold gate_operator. simpl exp_value. apply eigen_operator_canonical.
Qed.

Lemma NoDup_3_0_2_1 : NoDup [3; 0; 2; 1].
Proof. repeat constructor; simpl; intuition lia. Qed.

Lemma decomposition_equals_gate_exactly_witness :
  num_value (PyFloat (7 / 2)%R) = Some (7 / 2)%R
  /\ NoDup [3; 0; 2; 1]
  /\ exists g,
      DoubleExcitationGate.__init__ (Some (PyFloat (7 / 2)%R)) None None None
      = Ok g
      /\ snd (DoubleExcitationGate.default_decompose g [3; 0; 2; 1]) = Ok tt
      /\ equal_operators 16
           (circuit_unitary (fun _ => 0%R) [3; 0; 2; 1]
              (decomposed_operations g [3; 0; 2; 1]))
           (eigen_operator (DoubleExcitationGate._eigen_components g)
                           (7 / 2)%R).
Proof.
  split; [reflexivity |]. split; [exact NoDup_3_0_2_1 |].
  exact (decomposition_equals_gate_exactly (fun _ => 0%R)
           (PyFloat (7 / 2)%R) (7 / 2)%R 3 0 2 1 eq_refl NoDup_3_0_2_1).
Defined.

(** ** Periodicity of the constructor *)

(** X15. The constructor identifies exponents that differ by a multiple of
    2, and an integer with the float of the same value: it returns the same
    gate for them, so their decompositions are the same. *)
Theorem constructor_is_periodic :
  forall (x : R) (z k : Z),
    DoubleExcitationGate.__init__
      (Some (PyFloat (x + 2 * IZR k)%R)) None None None
    = DoubleExcitationGate.__init__ (Some (PyFloat x)) None None None
    /\ DoubleExcitationGate.__init__
         (Some (PyInt (z + 2 * k)%Z)) None None None
       = DoubleExcitationGate.__init__ (Some (PyInt z)) None None None
    /\ DoubleExcitationGate.__init__ (Some (PyInt z)) None None None
       = DoubleExcitationGate.__init__ (Some (PyFloat (IZR z))) None None None.
Proof.
  intros x z k.
  rewrite (init_half_turns_number (PyFloat (x + 2 * IZR k)) _ eq_refl).
  rewrite (init_half_turns_number (PyFloat x) _ eq_refl).
  rewrite (init_half_turns_number (PyInt (z + 2 * k)) _ eq_refl).
  rewrite (init_half_turns_number (PyInt z) _ eq_refl).
  rewrite (init_half_turns_number (PyFloat (IZR z)) _ eq_refl).
  rewrite canonicalize_periodic.
  rewrite plus_IZR, mult_IZR, canonicalize_periodic.
  repeat split.
Qed.
